(** * Kanban board models: the serialisation layer of
      [examples-integrations/python/kanban_models.py]

    The Python module defines four string-backed enumerations, four
    dataclasses and, for each dataclass, a [to_dict] method that builds the
    dictionary later handed to [json.dumps].  This development embeds those
    methods as Rocq functions and proves the properties the specification
    states about them. *)

From Stdlib Require Import ZArith String Ascii List Lia.
From stdpp Require Import base option list strings pretty gmap fin_maps.

Import ListNotations.
Local Open Scope string_scope.
Local Open Scope list_scope.

#[local] Arguments String.append !_ _ : simpl nomatch.

(** ** Python values that reach [json.dumps] *)

(** The values stored in the dictionaries the module builds: [None], [bool],
    [int], [str], [list] and [dict] with [str] keys.  A [dict] is kept as the
    list of its items in insertion order, which is the order Python iterates
    and prints them in. *)
#[local] Unset Elimination Schemes.
Inductive json : Type :=
  | JNull
  | JBool (b : bool)
  | JInt (z : Z)
  | JStr (s : string)
  | JArray (items : list json)
  | JObject (members : list (string * json)).
#[local] Set Elimination Schemes.

Definition dict : Type := list (string * json).

(** [d.get(k)] *)
Fixpoint dict_get {V : Type} (k : string) (d : list (string * V)) : option V :=
  match d with
  | [] => None
  | (k', v) :: rest => if String.eqb k k' then Some v else dict_get k rest
  end.

(** [d[k] = v]: an existing key keeps its position, a new key goes last. *)
Fixpoint dict_set {V : Type} (k : string) (v : V) (d : list (string * V))
  : list (string * V) :=
  match d with
  | [] => [(k, v)]
  | (k', v') :: rest =>
      if String.eqb k k' then (k', v) :: rest else (k', v') :: dict_set k v rest
  end.

(** [list(d.keys())] *)
Definition dict_keys {V : Type} (d : list (string * V)) : list string :=
  map fst d.

(** [k in d] *)
Definition dict_has {V : Type} (k : string) (d : list (string * V)) : bool :=
  match dict_get k d with Some _ => true | None => false end.

(** ** Enumerations *)

(** Each [class X(str, Enum)] member has a symbolic name (the identifier on
    the left of [=]) and a value (the string on the right). *)

Inductive ColumnState := TODO | IN_PROGRESS | PENDING | DONE.
Inductive SortField := UPDATE_DATE_TIME | DUE_DATE | TITLE | TIME_SPENT.
Inductive SortOrder := ASC | DESC.
Inductive KanbanView := HORIZONTAL | VERTICAL | TABLE.

Definition ColumnState_value (m : ColumnState) : string :=
  match m with
  | TODO => "todo"
  | IN_PROGRESS => "in-progress"
  | PENDING => "pending"
  | DONE => "done"
  end.

Definition ColumnState_name (m : ColumnState) : string :=
  match m with
  | TODO => "TODO"
  | IN_PROGRESS => "IN_PROGRESS"
  | PENDING => "PENDING"
  | DONE => "DONE"
  end.

Definition SortField_value (m : SortField) : string :=
  match m with
  | UPDATE_DATE_TIME => "updateDateTime"
  | DUE_DATE => "dueDate"
  | TITLE => "title"
  | TIME_SPENT => "timeSpent"
  end.

Definition SortField_name (m : SortField) : string :=
  match m with
  | UPDATE_DATE_TIME => "UPDATE_DATE_TIME"
  | DUE_DATE => "DUE_DATE"
  | TITLE => "TITLE"
  | TIME_SPENT => "TIME_SPENT"
  end.

Definition SortOrder_value (m : SortOrder) : string :=
  match m with
  | ASC => "asc"
  | DESC => "desc"
  end.

Definition SortOrder_name (m : SortOrder) : string :=
  match m with
  | ASC => "ASC"
  | DESC => "DESC"
  end.

Definition KanbanView_value (m : KanbanView) : string :=
  match m with
  | HORIZONTAL => "horizontal"
  | VERTICAL => "vertical"
  | TABLE => "table"
  end.

Definition KanbanView_name (m : KanbanView) : string :=
  match m with
  | HORIZONTAL => "HORIZONTAL"
  | VERTICAL => "VERTICAL"
  | TABLE => "TABLE"
  end.

(** ** Dataclasses *)

(** An [Optional[T] = None] field is an [option T]: [None] is Python's
    [None], [Some x] any other value, the empty list included. *)

Record TimerEntry := {
  start_time : string;
  end_time : option string
}.

Record KanbanTask := {
  task : string;
  status : option string;
  timer_entries : option (list TimerEntry);
  target_time : option string;
  tags : option (list string);
  due_date : option string;
  update_date_time : option string
}.

Record ColumnMetadata := {
  name : string;
  state : ColumnState;
  icon : option string;
  sort_field : option SortField;
  sort_order : option SortOrder;
  manual_sort : option bool
}.

(** [column_widths : Dict[str, int]] is the list of its items in insertion
    order. *)
Record KanbanData := {
  tasks : option (list KanbanTask);
  columns : option (list string);
  column_metadata : option (list ColumnMetadata);
  collapsed_columns : option (list string);
  view : option KanbanView;
  slim_mode : option bool;
  column_widths : option (list (string * Z))
}.

(** Conversions of field values to the values stored in the dictionary. *)
Definition opt_str (o : option string) : json :=
  match o with
  | Some s => JStr s
  | None => JNull
  end.

Definition str_list (l : list string) : json := JArray (map JStr l).

Definition int_dict (d : list (string * Z)) : json :=
  JObject (map (fun kv => (fst kv, JInt (snd kv))) d).

(** ** The [to_dict] methods *)

(** [TimerEntry.to_dict]: a dictionary display with both keys. *)
Definition TimerEntry_to_dict (self : TimerEntry) : dict :=
  [ ("startTime", JStr (start_time self));
    ("endTime", opt_str (end_time self)) ].

(** [KanbanTask.to_dict] *)
Definition KanbanTask_to_dict (self : KanbanTask) : dict :=
  let result := [ ("task", JStr (task self)) ] in
  let result :=
    match status self with
    | Some s => dict_set "status" (JStr s) result
    | None => result
    end in
  let result :=
    match timer_entries self with
    | Some entries =>
        dict_set "timerEntries"
          (JArray (map (fun entry => JObject (TimerEntry_to_dict entry)) entries))
          result
    | None => result
    end in
  let result :=
    match target_time self with
    | Some s => dict_set "targetTime" (JStr s) result
    | None => result
    end in
  let result :=
    match tags self with
    | Some l => dict_set "tags" (str_list l) result
    | None => result
    end in
  let result :=
    match due_date self with
    | Some s => dict_set "dueDate" (JStr s) result
    | None => result
    end in
  let result :=
    match update_date_time self with
    | Some s => dict_set "updateDateTime" (JStr s) result
    | None => result
    end in
  result.

(** [ColumnMetadata.to_dict] *)
Definition ColumnMetadata_to_dict (self : ColumnMetadata) : dict :=
  let result :=
    [ ("name", JStr (name self));
      ("state", JStr (ColumnState_value (state self))) ] in
  let result :=
    match icon self with
    | Some s => dict_set "icon" (JStr s) result
    | None => result
    end in
  let result :=
    match sort_field self with
    | Some f => dict_set "sortField" (JStr (SortField_value f)) result
    | None => result
    end in
  let result :=
    match sort_order self with
    | Some o => dict_set "sortOrder" (JStr (SortOrder_value o)) result
    | None => result
    end in
  let result :=
    match manual_sort self with
    | Some b => dict_set "manualSort" (JBool b) result
    | None => result
    end in
  result.

(** [KanbanData.to_dict] *)
Definition KanbanData_to_dict (self : KanbanData) : dict :=
  let result := [] in
  let result :=
    match tasks self with
    | Some ts =>
        dict_set "tasks"
          (JArray (map (fun task => JObject (KanbanTask_to_dict task)) ts)) result
    | None => result
    end in
  let result :=
    match columns self with
    | Some l => dict_set "columns" (str_list l) result
    | None => result
    end in
  let result :=
    match column_metadata self with
    | Some ms =>
        dict_set "columnMetadata"
          (JArray (map (fun meta => JObject (ColumnMetadata_to_dict meta)) ms))
          result
    | None => result
    end in
  let result :=
    match collapsed_columns self with
    | Some l => dict_set "collapsedColumns" (str_list l) result
    | None => result
    end in
  let result :=
    match view self with
    | Some v => dict_set "view" (JStr (KanbanView_value v)) result
    | None => result
    end in
  let result :=
    match slim_mode self with
    | Some b => dict_set "slimMode" (JBool b) result
    | None => result
    end in
  let result :=
    match column_widths self with
    | Some w => dict_set "columnWidths" (int_dict w) result
    | None => result
    end in
  result.

(** ** The text encoder *)

(** Modelled from the spec: [json.dumps] belongs to Python's standard library
    and is not part of this repository.  The specification fixes what
    [to_json] relies on: the value is written as JSON text, nested containers
    are laid out one item per line with the requested number of spaces per
    nesting level, and with [ensure_ascii=False] characters outside ASCII are
    written as they are.  The layout below is the library's: items separated
    by [","], keys by [": "], empty containers as ["[]"] and ["{}"].  A [str]
    is kept as its UTF-8 bytes, the encoding of the produced text. *)

Definition hex_digit (n : N) : ascii :=
  if (n <? 10)%N then ascii_of_N (48 + n) else ascii_of_N (87 + n).

(** ['\\u{0:04x}'.format(n)] for [n < 0x10000] *)
Definition u_escape (n : N) : string :=
  "\u" +:+ String (hex_digit (N.land (N.shiftr n 12) 15))
          (String (hex_digit (N.land (N.shiftr n 8) 15))
          (String (hex_digit (N.land (N.shiftr n 4) 15))
          (String (hex_digit (N.land n 15)) EmptyString))).

(** [ESCAPE_DCT]: the two-character escapes, and [\u00XX] for the other
    control characters. *)
Definition escape_char (c : ascii) : string :=
  let n := N_of_ascii c in
  if (n =? 92)%N then "\\"
  else if (n =? 34)%N then "\" +:+ String c EmptyString
  else if (n =? 8)%N then "\b"
  else if (n =? 12)%N then "\f"
  else if (n =? 10)%N then "\n"
  else if (n =? 13)%N then "\r"
  else if (n =? 9)%N then "\t"
  else if (n <? 32)%N then u_escape n
  else String c EmptyString.

Fixpoint escape_str (s : string) : string :=
  match s with
  | EmptyString => EmptyString
  | String c rest => escape_char c +:+ escape_str rest
  end.

Definition quote : string := String (ascii_of_N 34) EmptyString.

(** [encode_basestring], the string encoder chosen by [ensure_ascii=False] *)
Definition encode_basestring (s : string) : string :=
  quote +:+ escape_str s +:+ quote.

(** The code points of a UTF-8 byte string: [acc] holds the bits read so far
    of a multi-byte sequence and [need] the number of continuation bytes
    still expected. *)
Fixpoint utf8_points (s : string) (acc : N) (need : nat) : list N :=
  match s with
  | EmptyString => []
  | String c rest =>
      let b := N_of_ascii c in
      match need with
      | O =>
          if (b <? 128)%N then b :: utf8_points rest 0 0
          else if (b <? 224)%N then utf8_points rest (N.land b 31) 1
          else if (b <? 240)%N then utf8_points rest (N.land b 15) 2
          else utf8_points rest (N.land b 7) 3
      | S O => (acc * 64 + N.land b 63)%N :: utf8_points rest 0 0
      | S n => utf8_points rest (acc * 64 + N.land b 63)%N n
      end
  end.

(** The replacement [encode_basestring_ascii] applies to one character:
    printable ASCII stays, everything else becomes an escape, characters
    above the basic plane as a surrogate pair. *)
Definition escape_point_ascii (n : N) : string :=
  if (n <? 128)%N then
    if (n =? 127)%N then u_escape n else escape_char (ascii_of_N n)
  else if (n <? 65536)%N then u_escape n
  else
    let m := (n - 65536)%N in
    u_escape (N.lor 55296 (N.land (N.shiftr m 10) 1023))
      +:+ u_escape (N.lor 56320 (N.land m 1023)).

(** [encode_basestring_ascii], the string encoder chosen by
    [ensure_ascii=True] *)
Definition encode_basestring_ascii (s : string) : string :=
  quote +:+ String.concat EmptyString (map escape_point_ascii (utf8_points s 0 0)) +:+ quote.

(** [s * n] on strings: empty for [n <= 0] *)
Definition str_mul (s : string) (n : Z) : string :=
  String.concat EmptyString (repeat s (Z.to_nat n)).

Definition newline_indent (indent : string) (level : nat) : string :=
  String (ascii_of_N 10) (str_mul indent (Z.of_nat level)).

(** [_iterencode]: [indent] is the string for one nesting level, [None] for
    the compact one-line layout; [level] is [_current_indent_level]. *)
Fixpoint iterencode (encoder : string -> string) (indent : option string)
    (item_separator key_separator : string) (o : json) (level : nat) : string :=
  match o with
  | JStr s => encoder s
  | JNull => "null"
  | JBool true => "true"
  | JBool false => "false"
  | JInt z => pretty z
  | JArray [] => "[]"
  | JArray lst =>
      let chunks :=
        map (fun value =>
               iterencode encoder indent item_separator key_separator value (S level))
            lst in
      match indent with
      | Some ind =>
          "[" +:+ newline_indent ind (S level)
            +:+ String.concat (item_separator +:+ newline_indent ind (S level)) chunks
            +:+ newline_indent ind level +:+ "]"
      | None => "[" +:+ String.concat item_separator chunks +:+ "]"
      end
  | JObject [] => "{}"
  | JObject dct =>
      let chunks :=
        map (fun kv =>
               encoder (fst kv) +:+ key_separator
                 +:+ iterencode encoder indent item_separator key_separator
                       (snd kv) (S level))
            dct in
      match indent with
      | Some ind =>
          "{" +:+ newline_indent ind (S level)
            +:+ String.concat (item_separator +:+ newline_indent ind (S level)) chunks
            +:+ newline_indent ind level +:+ "}"
      | None => "{" +:+ String.concat item_separator chunks +:+ "}"
      end
  end.

(** [json.dumps(obj, indent=indent, ensure_ascii=ensure_ascii)]; the item
    separator is [", "] without indentation and [","] with it. *)
Definition json_dumps (obj : json) (indent : option Z) (ensure_ascii : bool)
  : string :=
  let encoder :=
    if ensure_ascii then encode_basestring_ascii else encode_basestring in
  let item_separator :=
    match indent with
    | None => ", "
    | Some _ => ","
    end in
  iterencode encoder (option_map (str_mul " ") indent) item_separator ": " obj 0.

(** [KanbanData.to_json(self, indent: int = 2)]: the argument [None] is the
    call that leaves [indent] out. *)
Definition KanbanData_to_json (self : KanbanData) (indent : option Z) : string :=
  let indent := match indent with Some n => n | None => 2%Z end in
  json_dumps (JObject (KanbanData_to_dict self)) (Some indent) false.

(** The "simple format" of [example.py]'s [main]: the list comprehension
    [[task.to_dict() for task in simple_tasks]] and its encoding with
    [json.dumps(..., indent=2, ensure_ascii=False)]. *)
Definition simple_format (simple_tasks : list KanbanTask) : json :=
  JArray (map (fun task => JObject (KanbanTask_to_dict task)) simple_tasks).

Definition simple_json (simple_tasks : list KanbanTask) : string :=
  json_dumps (simple_format simple_tasks) (Some 2%Z) false.

(** [KanbanTask(task=..., status=...)]: the other fields keep their default
    [None]. *)
Definition KanbanTask_task_status (t s : string) : KanbanTask :=
  {| task := t; status := Some s; timer_entries := None; target_time := None;
     tags := None; due_date := None; update_date_time := None |}.

(** The three tasks [main] builds. *)
Definition simple_tasks : list KanbanTask :=
  [ KanbanTask_task_status "Task 1" "todo";
    KanbanTask_task_status "Task 2" "in progress";
    KanbanTask_task_status "Task 3" "done" ].

(** ** Sample records *)

(** A timer that is still running: [TimerEntry(start_time=..., end_time=None)],
    as [create_example_kanban] builds it. *)
Definition running_timer : TimerEntry :=
  {| start_time := "2025-01-01T10:00:00Z"; end_time := None |}.

Definition stopped_timer : TimerEntry :=
  {| start_time := "2025-01-01T10:00:00Z"; end_time := Some "2025-01-01T12:00:00Z" |}.

(** [KanbanTask(task="Write docs", status="To Do",
                due_date="2025-01-01T00:00:00Z")] *)
Definition write_docs : KanbanTask :=
  {| task := "Write docs"; status := Some "To Do"; timer_entries := None;
     target_time := None; tags := None;
     due_date := Some "2025-01-01T00:00:00Z"; update_date_time := None |}.

(** [KanbanTask(task="Bare")] *)
Definition bare_task : KanbanTask :=
  {| task := "Bare"; status := None; timer_entries := None; target_time := None;
     tags := None; due_date := None; update_date_time := None |}.

(** A task with every optional field set, the two sequences to empty lists. *)
Definition full_task : KanbanTask :=
  {| task := "Full"; status := Some "Review"; timer_entries := Some [];
     target_time := Some "8h"; tags := Some [];
     due_date := Some "2025-01-01T00:00:00Z";
     update_date_time := Some "2025-01-02T00:00:00Z" |}.

(** [ColumnMetadata(name="Backlog")]: [state] takes its default. *)
Definition bare_meta : ColumnMetadata :=
  {| name := "Backlog"; state := TODO; icon := None; sort_field := None;
     sort_order := None; manual_sort := None |}.

Definition full_meta : ColumnMetadata :=
  {| name := "In Progress"; state := IN_PROGRESS; icon := Some "📋";
     sort_field := Some DUE_DATE; sort_order := Some DESC;
     manual_sort := Some false |}.

(** [KanbanData()] *)
Definition empty_board : KanbanData :=
  {| tasks := None; columns := None; column_metadata := None;
     collapsed_columns := None; view := None; slim_mode := None;
     column_widths := None |}.

(** [KanbanData(columns=["A", "B"])] *)
Definition columns_only : KanbanData :=
  {| tasks := None; columns := Some ["A"; "B"]; column_metadata := None;
     collapsed_columns := None; view := None; slim_mode := None;
     column_widths := None |}.

Definition full_board : KanbanData :=
  {| tasks := Some []; columns := Some []; column_metadata := Some [full_meta];
     collapsed_columns := Some []; view := Some TABLE; slim_mode := Some false;
     column_widths := Some [("A", 120%Z)] |}.

(** ** The expected contents of the dictionaries *)

(** The value expected under a sequence-valued key: the [to_dict] of every
    element, in order. *)
Definition entries_json (es : list TimerEntry) : json :=
  JArray (map (fun entry => JObject (TimerEntry_to_dict entry)) es).

Definition tasks_json (ts : list KanbanTask) : json :=
  JArray (map (fun task => JObject (KanbanTask_to_dict task)) ts).

Definition metas_json (ms : list ColumnMetadata) : json :=
  JArray (map (fun meta => JObject (ColumnMetadata_to_dict meta)) ms).

(** The key of an optional field: present when the field is set. *)
Definition opt_key {A : Type} (k : string) (o : option A) : list string :=
  match o with
  | Some _ => [k]
  | None => []
  end.

(** [n] spaces *)
Fixpoint spaces (n : nat) : string :=
  match n with
  | O => EmptyString
  | S m => String " " (spaces m)
  end.

Definition newline : string := String (ascii_of_N 10) EmptyString.

(** A string between double quotes *)
Definition quoted (s : string) : string := quote +:+ s +:+ quote.

(** All bytes of a string lie outside ASCII. *)
Definition non_ascii (s : string) : Prop :=
  Forall (fun c => (128 <= N_of_ascii c)%N) (list_ascii_of_string s).

(** [KanbanData(column_metadata=[ColumnMetadata(name="Backlog", icon="📋")])] *)
Definition emoji_board : KanbanData :=
  {| tasks := None; columns := None;
     column_metadata :=
       Some [ {| name := "Backlog"; state := TODO; icon := Some "📋";
                 sort_field := None; sort_order := None; manual_sort := None |} ];
     collapsed_columns := None; view := None; slim_mode := None;
     column_widths := None |}.

(** ** The same methods on Python's object store *)

(** The functions above take records and return values.  In Python the
    records, lists and dictionaries are mutable objects reached through
    references, and [to_dict] works on them by reading attributes,
    allocating objects and assigning to keys of the dictionary it builds.
    Module [Store] runs the methods at that level: a heap of objects and
    state-passing computations that may fail. *)
Module Store.

Definition loc := positive.

(** What a variable or a slot of an object holds: an immutable value ([None],
    [bool], [int], [str], a member of one of the enumerations) or a reference
    to an object of the heap. *)
Inductive val : Type :=
  | VNone
  | VBool (b : bool)
  | VInt (z : Z)
  | VStr (s : string)
  | VColumnState (m : ColumnState)
  | VSortField (m : SortField)
  | VSortOrder (m : SortOrder)
  | VKanbanView (m : KanbanView)
  | VRef (l : loc).

(** Heap objects: lists, dictionaries, and dataclass instances with their
    class name and attributes. *)
Inductive obj : Type :=
  | OList (items : list val)
  | ODict (items : list (string * val))
  | OInstance (cls : string) (attrs : list (string * val)).

Abbreviation heap := (gmap loc obj).

(** Computations on the heap; [None] is a raised exception. *)
Definition Py (A : Type) : Type := heap -> option (A * heap).

Definition ret {A : Type} (x : A) : Py A := fun h => Some (x, h).

Definition bind {A B : Type} (m : Py A) (f : A -> Py B) : Py B :=
  fun h =>
    match m h with
    | Some (x, h') => f x h'
    | None => None
    end.

Definition raise {A : Type} : Py A := fun _ => None.

Notation "'let*' x := m 'in' k" := (bind m (fun x => k))
  (at level 10, x name, m at level 100, k at level 200).
Notation "m ;;; k" := (bind m (fun _ => k))
  (at level 100, k at level 200, right associativity).

(** Allocation of a new object, at a location the heap does not use. *)
Definition new (o : obj) : Py val :=
  fun h => let l := fresh (dom h) in Some (VRef l, <[l := o]> h).

Definition deref (v : val) : Py obj :=
  fun h =>
    match v with
    | VRef l =>
        match h !! l with
        | Some o => Some (o, h)
        | None => None
        end
    | _ => None
    end.

(** [self.a] on a dataclass instance *)
Definition getattr (self : val) (a : string) : Py val :=
  let* o := deref self in
  match o with
  | OInstance _ attrs =>
      match dict_get a attrs with
      | Some v => ret v
      | None => raise
      end
  | _ => raise
  end.

(** [m.value] on an enumeration member *)
Definition enum_value (m : val) : Py val :=
  match m with
  | VColumnState m => ret (VStr (ColumnState_value m))
  | VSortField m => ret (VStr (SortField_value m))
  | VSortOrder m => ret (VStr (SortOrder_value m))
  | VKanbanView m => ret (VStr (KanbanView_value m))
  | _ => raise
  end.

(** [v is not None] *)
Definition is_not_None (v : val) : bool :=
  match v with
  | VNone => false
  | _ => true
  end.

(** [d[k] = v] on a dictionary object *)
Definition setitem (d : val) (k : string) (v : val) : Py unit :=
  fun h =>
    match d with
    | VRef l =>
        match h !! l with
        | Some (ODict items) => Some (tt, <[l := ODict (dict_set k v items)]> h)
        | _ => None
        end
    | _ => None
    end.

(** The items a [for] over a list object visits. *)
Definition iterate (xs : val) : Py (list val) :=
  let* o := deref xs in
  match o with
  | OList items => ret items
  | _ => raise
  end.

(** [[f(x) for x in l]], the calls made from left to right. *)
Fixpoint for_each {A B : Type} (f : A -> Py B) (l : list A) : Py (list B) :=
  match l with
  | [] => ret []
  | x :: rest =>
      let* y := f x in
      let* ys := for_each f rest in
      ret (y :: ys)
  end.

(** [x.to_dict()] where the annotations give [x] the class [cls]: the call
    runs that class's method.  An object of another class is outside the
    model. *)
Definition method (cls : string) (f : val -> Py val) (self : val) : Py val :=
  let* o := deref self in
  match o with
  | OInstance c _ => if String.eqb c cls then f self else raise
  | _ => raise
  end.

(** [TimerEntry.to_dict] *)
Definition TimerEntry_to_dict (self : val) : Py val :=
  let* v_start := getattr self "start_time" in
  let* v_end := getattr self "end_time" in
  new (ODict [ ("startTime", v_start); ("endTime", v_end) ]).

(** [KanbanTask.to_dict] *)
Definition KanbanTask_to_dict (self : val) : Py val :=
  let* v := getattr self "task" in
  let* result := new (ODict [ ("task", v) ]) in
  (let* c := getattr self "status" in
   if is_not_None c then
     let* v := getattr self "status" in
     setitem result "status" v
   else ret tt) ;;;
  (let* c := getattr self "timer_entries" in
   if is_not_None c then
     let* xs := getattr self "timer_entries" in
     let* entries := iterate xs in
     let* ds := for_each (method "TimerEntry" TimerEntry_to_dict) entries in
     let* v := new (OList ds) in
     setitem result "timerEntries" v
   else ret tt) ;;;
  (let* c := getattr self "target_time" in
   if is_not_None c then
     let* v := getattr self "target_time" in
     setitem result "targetTime" v
   else ret tt) ;;;
  (let* c := getattr self "tags" in
   if is_not_None c then
     let* v := getattr self "tags" in
     setitem result "tags" v
   else ret tt) ;;;
  (let* c := getattr self "due_date" in
   if is_not_None c then
     let* v := getattr self "due_date" in
     setitem result "dueDate" v
   else ret tt) ;;;
  (let* c := getattr self "update_date_time" in
   if is_not_None c then
     let* v := getattr self "update_date_time" in
     setitem result "updateDateTime" v
   else ret tt) ;;;
  ret result.

(** [ColumnMetadata.to_dict] *)
Definition ColumnMetadata_to_dict (self : val) : Py val :=
  let* v_name := getattr self "name" in
  let* m := getattr self "state" in
  let* v_state := enum_value m in
  let* result := new (ODict [ ("name", v_name); ("state", v_state) ]) in
  (let* c := getattr self "icon" in
   if is_not_None c then
     let* v := getattr self "icon" in
     setitem result "icon" v
   else ret tt) ;;;
  (let* c := getattr self "sort_field" in
   if is_not_None c then
     let* m := getattr self "sort_field" in
     let* v := enum_value m in
     setitem result "sortField" v
   else ret tt) ;;;
  (let* c := getattr self "sort_order" in
   if is_not_None c then
     let* m := getattr self "sort_order" in
     let* v := enum_value m in
     setitem result "sortOrder" v
   else ret tt) ;;;
  (let* c := getattr self "manual_sort" in
   if is_not_None c then
     let* v := getattr self "manual_sort" in
     setitem result "manualSort" v
   else ret tt) ;;;
  ret result.

(** [KanbanData.to_dict] *)
Definition KanbanData_to_dict (self : val) : Py val :=
  let* result := new (ODict []) in
  (let* c := getattr self "tasks" in
   if is_not_None c then
     let* xs := getattr self "tasks" in
     let* ts := iterate xs in
     let* ds := for_each (method "KanbanTask" KanbanTask_to_dict) ts in
     let* v := new (OList ds) in
     setitem result "tasks" v
   else ret tt) ;;;
  (let* c := getattr self "columns" in
   if is_not_None c then
     let* v := getattr self "columns" in
     setitem result "columns" v
   else ret tt) ;;;
  (let* c := getattr self "column_metadata" in
   if is_not_None c then
     let* xs := getattr self "column_metadata" in
     let* ms := iterate xs in
     let* ds := for_each (method "ColumnMetadata" ColumnMetadata_to_dict) ms in
     let* v := new (OList ds) in
     setitem result "columnMetadata" v
   else ret tt) ;;;
  (let* c := getattr self "collapsed_columns" in
   if is_not_None c then
     let* v := getattr self "collapsed_columns" in
     setitem result "collapsedColumns" v
   else ret tt) ;;;
  (let* c := getattr self "view" in
   if is_not_None c then
     let* m := getattr self "view" in
     let* v := enum_value m in
     setitem result "view" v
   else ret tt) ;;;
  (let* c := getattr self "slim_mode" in
   if is_not_None c then
     let* v := getattr self "slim_mode" in
     setitem result "slimMode" v
   else ret tt) ;;;
  (let* c := getattr self "column_widths" in
   if is_not_None c then
     let* v := getattr self "column_widths" in
     setitem result "columnWidths" v
   else ret tt) ;;;
  ret result.

(** *** Reading the heap *)

(** The record a reference stands for: the dataclass instance it points to,
    with attributes of the annotated types.  [None] when the heap holds
    something else there. *)
Definition read_str (v : val) : option string :=
  match v with
  | VStr s => Some s
  | _ => None
  end.

Definition read_bool (v : val) : option bool :=
  match v with
  | VBool b => Some b
  | _ => None
  end.

Definition read_int (v : val) : option Z :=
  match v with
  | VInt z => Some z
  | _ => None
  end.

Definition read_ColumnState (v : val) : option ColumnState :=
  match v with
  | VColumnState m => Some m
  | _ => None
  end.

Definition read_SortField (v : val) : option SortField :=
  match v with
  | VSortField m => Some m
  | _ => None
  end.

Definition read_SortOrder (v : val) : option SortOrder :=
  match v with
  | VSortOrder m => Some m
  | _ => None
  end.

Definition read_KanbanView (v : val) : option KanbanView :=
  match v with
  | VKanbanView m => Some m
  | _ => None
  end.

(** [Optional[T]] *)
Definition read_optional {A : Type} (rd : val -> option A) (v : val)
  : option (option A) :=
  match v with
  | VNone => Some None
  | _ => Some <$> rd v
  end.

(** [List[T]] *)
Definition read_list {A : Type} (rd : val -> option A) (h : heap) (v : val)
  : option (list A) :=
  match v with
  | VRef l =>
      match h !! l with
      | Some (OList items) => mapM rd items
      | _ => None
      end
  | _ => None
  end.

(** [Dict[str, int]] *)
Definition read_int_dict (h : heap) (v : val) : option (list (string * Z)) :=
  match v with
  | VRef l =>
      match h !! l with
      | Some (ODict items) =>
          mapM (fun kv => z ← read_int (snd kv); Some (fst kv, z)) items
      | _ => None
      end
  | _ => None
  end.

Definition instance_attrs (cls : string) (h : heap) (v : val)
  : option (list (string * val)) :=
  match v with
  | VRef l =>
      match h !! l with
      | Some (OInstance c attrs) => if String.eqb c cls then Some attrs else None
      | _ => None
      end
  | _ => None
  end.

Definition read_attr {A : Type} (rd : val -> option A) (a : string)
    (attrs : list (string * val)) : option A :=
  v ← dict_get a attrs; rd v.

Definition read_TimerEntry (h : heap) (v : val) : option TimerEntry :=
  attrs ← instance_attrs "TimerEntry" h v;
  f1 ← read_attr read_str "start_time" attrs;
  f2 ← read_attr (read_optional read_str) "end_time" attrs;
  Some {| start_time := f1; end_time := f2 |}.

Definition read_KanbanTask (h : heap) (v : val) : option KanbanTask :=
  attrs ← instance_attrs "KanbanTask" h v;
  f1 ← read_attr read_str "task" attrs;
  f2 ← read_attr (read_optional read_str) "status" attrs;
  f3 ← read_attr (read_optional (read_list (read_TimerEntry h) h))
         "timer_entries" attrs;
  f4 ← read_attr (read_optional read_str) "target_time" attrs;
  f5 ← read_attr (read_optional (read_list read_str h)) "tags" attrs;
  f6 ← read_attr (read_optional read_str) "due_date" attrs;
  f7 ← read_attr (read_optional read_str) "update_date_time" attrs;
  Some {| task := f1; status := f2; timer_entries := f3; target_time := f4;
          tags := f5; due_date := f6; update_date_time := f7 |}.

Definition read_ColumnMetadata (h : heap) (v : val) : option ColumnMetadata :=
  attrs ← instance_attrs "ColumnMetadata" h v;
  f1 ← read_attr read_str "name" attrs;
  f2 ← read_attr read_ColumnState "state" attrs;
  f3 ← read_attr (read_optional read_str) "icon" attrs;
  f4 ← read_attr (read_optional read_SortField) "sort_field" attrs;
  f5 ← read_attr (read_optional read_SortOrder) "sort_order" attrs;
  f6 ← read_attr (read_optional read_bool) "manual_sort" attrs;
  Some {| name := f1; state := f2; icon := f3; sort_field := f4;
          sort_order := f5; manual_sort := f6 |}.

Definition read_KanbanData (h : heap) (v : val) : option KanbanData :=
  attrs ← instance_attrs "KanbanData" h v;
  f1 ← read_attr (read_optional (read_list (read_KanbanTask h) h)) "tasks" attrs;
  f2 ← read_attr (read_optional (read_list read_str h)) "columns" attrs;
  f3 ← read_attr (read_optional (read_list (read_ColumnMetadata h) h))
         "column_metadata" attrs;
  f4 ← read_attr (read_optional (read_list read_str h)) "collapsed_columns" attrs;
  f5 ← read_attr (read_optional read_KanbanView) "view" attrs;
  f6 ← read_attr (read_optional read_bool) "slim_mode" attrs;
  f7 ← read_attr (read_optional (read_int_dict h)) "column_widths" attrs;
  Some {| tasks := f1; columns := f2; column_metadata := f3;
          collapsed_columns := f4; view := f5; slim_mode := f6;
          column_widths := f7 |}.

(** The value [json.dumps] sees behind a reference: lists and dictionaries
    are followed, a member of a [str] enumeration counts as its string, a
    dataclass instance is not serialisable.  [fuel] bounds the nesting
    depth; a circular structure exhausts any fuel. *)
Fixpoint read_json (fuel : nat) (h : heap) (v : val) : option json :=
  match fuel with
  | O => None
  | S fuel =>
      match v with
      | VNone => Some JNull
      | VBool b => Some (JBool b)
      | VInt z => Some (JInt z)
      | VStr s => Some (JStr s)
      | VColumnState m => Some (JStr (ColumnState_value m))
      | VSortField m => Some (JStr (SortField_value m))
      | VSortOrder m => Some (JStr (SortOrder_value m))
      | VKanbanView m => Some (JStr (KanbanView_value m))
      | VRef l =>
          match h !! l with
          | Some (OList items) => JArray <$> mapM (read_json fuel h) items
          | Some (ODict items) =>
              JObject <$> mapM (fun kv => j ← read_json fuel h (snd kv);
                                          Some (fst kv, j)) items
          | _ => None
          end
      end
  end.

(** The nesting depth beyond which [json.dumps] gives up. *)
Definition max_depth : nat := 1000.

(** [json.dumps(obj, indent=indent, ensure_ascii=ensure_ascii)] on a value of
    the heap; raises on what is not serialisable. *)
Definition dumps (obj : val) (indent : option Z) (ensure_ascii : bool)
  : Py string :=
  fun h =>
    match read_json max_depth h obj with
    | Some j => Some (json_dumps j indent ensure_ascii, h)
    | None => None
    end.

(** [KanbanData.to_json] *)
Definition KanbanData_to_json (self : val) (indent : option Z) : Py string :=
  let indent := match indent with Some n => n | None => 2%Z end in
  let* d := KanbanData_to_dict self in
  dumps d (Some indent) false.

(** A heap with one board: two tasks sharing one list of tags, one running
    timer, one column. *)
Definition sample_heap : heap :=
  list_to_map
    [ (1%positive, OInstance "TimerEntry"
                     [ ("start_time", VStr "2025-01-01T10:00:00Z");
                       ("end_time", VNone) ]);
      (2%positive, OList [VRef 1%positive]);
      (3%positive, OList [VStr "#a"; VStr "#b"]);
      (4%positive, OInstance "KanbanTask"
                     [ ("task", VStr "Write docs"); ("status", VStr "To Do");
                       ("timer_entries", VRef 2%positive); ("target_time", VNone);
                       ("tags", VRef 3%positive); ("due_date", VNone);
                       ("update_date_time", VNone) ]);
      (5%positive, OInstance "KanbanTask"
                     [ ("task", VStr "Review"); ("status", VNone);
                       ("timer_entries", VNone); ("target_time", VStr "1h");
                       ("tags", VRef 3%positive); ("due_date", VNone);
                       ("update_date_time", VNone) ]);
      (6%positive, OList [VRef 4%positive; VRef 5%positive]);
      (7%positive, OInstance "ColumnMetadata"
                     [ ("name", VStr "Backlog"); ("state", VColumnState IN_PROGRESS);
                       ("icon", VStr "📋"); ("sort_field", VSortField DUE_DATE);
                       ("sort_order", VNone); ("manual_sort", VBool true) ]);
      (8%positive, OList [VRef 7%positive]);
      (9%positive, ODict [ ("Backlog", VInt 120) ]);
      (10%positive, OInstance "KanbanData"
                      [ ("tasks", VRef 6%positive); ("columns", VNone);
                        ("column_metadata", VRef 8%positive);
                        ("collapsed_columns", VNone);
                        ("view", VKanbanView TABLE); ("slim_mode", VBool false);
                        ("column_widths", VRef 9%positive) ]) ].

End Store.

(** *** What running a method on the heap guarantees *)

(** [returns G h m j n]: run from the heap [h], the computation [m] succeeds
    with a value [r]; the final heap is [h] with new objects [Δ] added at
    locations [h] did not use; and [r], read through the part [G] of the heap
    together with the new objects, is the value [j] (with any fuel from [n]
    on). *)
Definition returns (G h : Store.heap) (m : Store.Py Store.val) (j : json)
    (n : nat) : Prop :=
  exists (r : Store.val) (Δ : Store.heap),
    m h = Some (r, h ∪ Δ) /\
    Δ ##ₘ h /\
    forall fuel, n <= fuel -> Store.read_json fuel (G ∪ Δ) r = Some j.

(** How the items of a dictionary object are read. *)
Definition read_items (fuel : nat) (G : Store.heap)
    (items : list (string * Store.val)) : option dict :=
  mapM (fun kv => j ← Store.read_json fuel G (snd kv); Some (fst kv, j)) items.

(** [building G h r H d n]: in the middle of a [to_dict], [H] is the heap
    [h] the call started from plus new objects, among them the dictionary
    under construction at [r], whose items read as [d]. *)
Definition building (G h : Store.heap) (r : Store.loc) (H : Store.heap)
    (d : dict) (n : nat) : Prop :=
  exists (Δ : Store.heap) (items : list (string * Store.val)),
    H = h ∪ Δ /\
    Δ ##ₘ h /\
    Δ !! r = Some (Store.ODict items) /\
    forall fuel, n <= fuel -> read_items fuel (G ∪ delete r Δ) items = Some d.

(** [extends h h']: every object of [h] is still in [h'], at the same
    location and with the same contents. *)
Definition extends (h h' : Store.heap) : Prop :=
  forall (l : Store.loc) (o : Store.obj), h !! l = Some o -> h' !! l = Some o.

(** The board that [Store.sample_heap] holds at location 10, its first task,
    that task's timer and the column. *)
Definition sample_timer : TimerEntry :=
  {| start_time := "2025-01-01T10:00:00Z"; end_time := None |}.

Definition sample_task : KanbanTask :=
  {| task := "Write docs"; status := Some "To Do";
     timer_entries := Some [sample_timer]; target_time := None;
     tags := Some ["#a"; "#b"]; due_date := None; update_date_time := None |}.

Definition sample_meta : ColumnMetadata :=
  {| name := "Backlog"; state := IN_PROGRESS; icon := Some "📋";
     sort_field := Some DUE_DATE; sort_order := None; manual_sort := Some true |}.

Definition sample_board : KanbanData :=
  {| tasks :=
       Some [ sample_task;
              {| task := "Review"; status := None; timer_entries := None;
                 target_time := Some "1h"; tags := Some ["#a"; "#b"];
                 due_date := None; update_date_time := None |} ];
     columns := None;
     column_metadata := Some [sample_meta];
     collapsed_columns := None;
     view := Some TABLE;
     slim_mode := Some false;
     column_widths := Some [("Backlog", 120%Z)] |}.

(** ** Dictionary lemmas *)

Section DictLemmas.
Context {V : Type}.
Implicit Types (k : string) (v : V) (d : list (string * V)).

Lemma dict_get_set_eq k v d : dict_get k (dict_set k v d) = Some v.
Proof.
  induction d as [|[k' v'] rest IH]; simpl.
  - now rewrite String.eqb_refl.
  - destruct (String.eqb k k') eqn:E; simpl; rewrite E; auto.
Qed.

Lemma dict_get_set_ne k k' v d :
  k <> k' -> dict_get k' (dict_set k v d) = dict_get k' d.
Proof.
  intros Hne. induction d as [|[k0 v0] rest IH]; simpl.
  - destruct (String.eqb k' k) eqn:E; auto.
    apply String.eqb_eq in E. congruence.
  - destruct (String.eqb k k0) eqn:E; simpl.
    + apply String.eqb_eq in E. subst k0.
      destruct (String.eqb k' k) eqn:E'; auto.
      apply String.eqb_eq in E'. congruence.
    + now rewrite IH.
Qed.

Lemma dict_get_None_keys k d : dict_get k d = None <-> ~ In k (dict_keys d).
Proof.
  induction d as [|[k' v'] rest IH]; simpl.
  - tauto.
  - destruct (String.eqb k k') eqn:E.
    + apply String.eqb_eq in E. subst. split; [discriminate | tauto].
    + apply String.eqb_neq in E. rewrite IH. split.
      * intros H [->|H']; tauto.
      * tauto.
Qed.

Lemma dict_get_Some_keys k v d : dict_get k d = Some v -> In k (dict_keys d).
Proof.
  intros H. destruct (in_dec string_dec k (dict_keys d)) as [|Hn]; auto.
  apply dict_get_None_keys in Hn. congruence.
Qed.
End DictLemmas.


(** ** What each [to_dict] stores under each key *)

Ltac by_cases_on_fields r :=
  destruct r; simpl in *;
  repeat match goal with o : option _ |- _ => destruct o end;
  repeat split; reflexivity.

Lemma TimerEntry_to_dict_lookup (e : TimerEntry) :
  dict_get "startTime" (TimerEntry_to_dict e) = Some (JStr (start_time e)) /\
  dict_get "endTime" (TimerEntry_to_dict e) = Some (opt_str (end_time e)).
Proof. split; reflexivity. Qed.

Lemma KanbanTask_to_dict_lookup (t : KanbanTask) :
  dict_get "task" (KanbanTask_to_dict t) = Some (JStr (task t)) /\
  dict_get "status" (KanbanTask_to_dict t) = option_map JStr (status t) /\
  dict_get "timerEntries" (KanbanTask_to_dict t)
    = option_map entries_json (timer_entries t) /\
  dict_get "targetTime" (KanbanTask_to_dict t) = option_map JStr (target_time t) /\
  dict_get "tags" (KanbanTask_to_dict t) = option_map str_list (tags t) /\
  dict_get "dueDate" (KanbanTask_to_dict t) = option_map JStr (due_date t) /\
  dict_get "updateDateTime" (KanbanTask_to_dict t)
    = option_map JStr (update_date_time t).
Proof. by_cases_on_fields t. Qed.

Lemma ColumnMetadata_to_dict_lookup (m : ColumnMetadata) :
  dict_get "name" (ColumnMetadata_to_dict m) = Some (JStr (name m)) /\
  dict_get "state" (ColumnMetadata_to_dict m)
    = Some (JStr (ColumnState_value (state m))) /\
  dict_get "icon" (ColumnMetadata_to_dict m) = option_map JStr (icon m) /\
  dict_get "sortField" (ColumnMetadata_to_dict m)
    = option_map (fun f => JStr (SortField_value f)) (sort_field m) /\
  dict_get "sortOrder" (ColumnMetadata_to_dict m)
    = option_map (fun o => JStr (SortOrder_value o)) (sort_order m) /\
  dict_get "manualSort" (ColumnMetadata_to_dict m) = option_map JBool (manual_sort m).
Proof. by_cases_on_fields m. Qed.

Lemma KanbanData_to_dict_lookup (d : KanbanData) :
  dict_get "tasks" (KanbanData_to_dict d) = option_map tasks_json (tasks d) /\
  dict_get "columns" (KanbanData_to_dict d) = option_map str_list (columns d) /\
  dict_get "columnMetadata" (KanbanData_to_dict d)
    = option_map metas_json (column_metadata d) /\
  dict_get "collapsedColumns" (KanbanData_to_dict d)
    = option_map str_list (collapsed_columns d) /\
  dict_get "view" (KanbanData_to_dict d)
    = option_map (fun v => JStr (KanbanView_value v)) (view d) /\
  dict_get "slimMode" (KanbanData_to_dict d) = option_map JBool (slim_mode d) /\
  dict_get "columnWidths" (KanbanData_to_dict d)
    = option_map int_dict (column_widths d).
Proof. by_cases_on_fields d. Qed.

(** The keys of each dictionary: the required ones, then the key of every
    optional field that is set, in the order the method assigns them. *)
Lemma KanbanTask_to_dict_keys (t : KanbanTask) :
  dict_keys (KanbanTask_to_dict t)
  = "task" :: opt_key "status" (status t)
      ++ opt_key "timerEntries" (timer_entries t)
      ++ opt_key "targetTime" (target_time t)
      ++ opt_key "tags" (tags t)
      ++ opt_key "dueDate" (due_date t)
      ++ opt_key "updateDateTime" (update_date_time t).
Proof. by_cases_on_fields t. Qed.

Lemma ColumnMetadata_to_dict_keys (m : ColumnMetadata) :
  dict_keys (ColumnMetadata_to_dict m)
  = "name" :: "state" :: opt_key "icon" (icon m)
      ++ opt_key "sortField" (sort_field m)
      ++ opt_key "sortOrder" (sort_order m)
      ++ opt_key "manualSort" (manual_sort m).
Proof. by_cases_on_fields m. Qed.

Lemma KanbanData_to_dict_keys (d : KanbanData) :
  dict_keys (KanbanData_to_dict d)
  = opt_key "tasks" (tasks d)
      ++ opt_key "columns" (columns d)
      ++ opt_key "columnMetadata" (column_metadata d)
      ++ opt_key "collapsedColumns" (collapsed_columns d)
      ++ opt_key "view" (view d)
      ++ opt_key "slimMode" (slim_mode d)
      ++ opt_key "columnWidths" (column_widths d).
Proof. by_cases_on_fields d. Qed.

(** ** Optional fields that are not set *)

(** C1, as the specification states it, fails for [TimerEntry]: the
    dictionary display of [TimerEntry.to_dict] always has the key
    ["endTime"], and a running timer ([end_time=None]) gets it with the
    value [None], which [json.dumps] prints as [null]. *)
Lemma TimerEntry_unset_end_time_is_null :
  end_time running_timer = None /\
  TimerEntry_to_dict running_timer
    = [ ("startTime", JStr "2025-01-01T10:00:00Z"); ("endTime", JNull) ] /\
  dict_get "endTime" (TimerEntry_to_dict running_timer) = Some JNull /\
  ~ (forall e : TimerEntry,
       end_time e = None -> dict_get "endTime" (TimerEntry_to_dict e) = None).
Proof.
  repeat split.
  intros H. specialize (H running_timer eq_refl). discriminate H.
Qed.

(** C1 (amended): for [KanbanTask], [ColumnMetadata] and [KanbanData], an
    optional field that is not set leaves its wire key out of the [to_dict]
    result altogether, so the key is bound to no value at all, neither
    [null] nor an empty container; [TimerEntry.to_dict] always emits
    ["endTime"], with the value [null] when [end_time] is not set. *)
Theorem unset_optional_fields :
  (forall t : KanbanTask,
      (status t = None -> dict_get "status" (KanbanTask_to_dict t) = None) /\
      (timer_entries t = None
         -> dict_get "timerEntries" (KanbanTask_to_dict t) = None) /\
      (target_time t = None -> dict_get "targetTime" (KanbanTask_to_dict t) = None) /\
      (tags t = None -> dict_get "tags" (KanbanTask_to_dict t) = None) /\
      (due_date t = None -> dict_get "dueDate" (KanbanTask_to_dict t) = None) /\
      (update_date_time t = None
         -> dict_get "updateDateTime" (KanbanTask_to_dict t) = None)) /\
  (forall m : ColumnMetadata,
      (icon m = None -> dict_get "icon" (ColumnMetadata_to_dict m) = None) /\
      (sort_field m = None
         -> dict_get "sortField" (ColumnMetadata_to_dict m) = None) /\
      (sort_order m = None
         -> dict_get "sortOrder" (ColumnMetadata_to_dict m) = None) /\
      (manual_sort m = None
         -> dict_get "manualSort" (ColumnMetadata_to_dict m) = None)) /\
  (forall d : KanbanData,
      (tasks d = None -> dict_get "tasks" (KanbanData_to_dict d) = None) /\
      (columns d = None -> dict_get "columns" (KanbanData_to_dict d) = None) /\
      (column_metadata d = None
         -> dict_get "columnMetadata" (KanbanData_to_dict d) = None) /\
      (collapsed_columns d = None
         -> dict_get "collapsedColumns" (KanbanData_to_dict d) = None) /\
      (view d = None -> dict_get "view" (KanbanData_to_dict d) = None) /\
      (slim_mode d = None -> dict_get "slimMode" (KanbanData_to_dict d) = None) /\
      (column_widths d = None
         -> dict_get "columnWidths" (KanbanData_to_dict d) = None)) /\
  (forall e : TimerEntry,
      dict_keys (TimerEntry_to_dict e) = ["startTime"; "endTime"] /\
      (end_time e = None
         -> dict_get "endTime" (TimerEntry_to_dict e) = Some JNull)).
Proof.
  split; [|split; [|split]].
  - intros t.
    destruct (KanbanTask_to_dict_lookup t) as (_ & H1 & H2 & H3 & H4 & H5 & H6).
    repeat split; intros E; rewrite E in *; assumption.
  - intros m.
    destruct (ColumnMetadata_to_dict_lookup m) as (_ & _ & H1 & H2 & H3 & H4).
    repeat split; intros E; rewrite E in *; assumption.
  - intros d.
    destruct (KanbanData_to_dict_lookup d) as (H1 & H2 & H3 & H4 & H5 & H6 & H7).
    repeat split; intros E; rewrite E in *; assumption.
  - intros e. split; [reflexivity|].
    intros E. unfold TimerEntry_to_dict. rewrite E. reflexivity.
Qed.

Lemma unset_optional_fields_witness :
  dict_get "status" (KanbanTask_to_dict bare_task) = None /\
  dict_get "tags" (KanbanTask_to_dict bare_task) = None /\
  dict_get "icon" (ColumnMetadata_to_dict bare_meta) = None /\
  dict_get "columns" (KanbanData_to_dict empty_board) = None /\
  dict_get "endTime" (TimerEntry_to_dict running_timer) = Some JNull.
Proof.
  destruct unset_optional_fields as (Ht & Hm & Hd & He).
  split; [|split; [|split; [|split]]].
  - apply (Ht bare_task). reflexivity.
  - apply (Ht bare_task). reflexivity.
  - apply (Hm bare_meta). reflexivity.
  - apply (Hd empty_board). reflexivity.
  - apply (He running_timer). reflexivity.
Defined.

(** ** Wire keys *)

(** C2: every field is emitted under its wire key.  The keys of each
    dictionary are exactly the wire keys of the required fields and of the
    optional fields that are set: the camelCase names of the renaming table
    ([startTime], [endTime], [timerEntries], [targetTime], [dueDate],
    [updateDateTime], [sortField], [sortOrder], [manualSort],
    [columnMetadata], [collapsedColumns], [slimMode], [columnWidths]) and
    the unchanged names of the others ([task], [status], [tags], [name],
    [state], [icon], [tasks], [columns], [view]); and the value found under
    each key is that field's value. *)
Theorem wire_key_names :
  (forall e : TimerEntry,
      dict_keys (TimerEntry_to_dict e) = ["startTime"; "endTime"] /\
      dict_get "startTime" (TimerEntry_to_dict e) = Some (JStr (start_time e)) /\
      dict_get "endTime" (TimerEntry_to_dict e) = Some (opt_str (end_time e))) /\
  (forall t : KanbanTask,
      dict_keys (KanbanTask_to_dict t)
      = "task" :: opt_key "status" (status t)
          ++ opt_key "timerEntries" (timer_entries t)
          ++ opt_key "targetTime" (target_time t)
          ++ opt_key "tags" (tags t)
          ++ opt_key "dueDate" (due_date t)
          ++ opt_key "updateDateTime" (update_date_time t) /\
      dict_get "task" (KanbanTask_to_dict t) = Some (JStr (task t)) /\
      dict_get "status" (KanbanTask_to_dict t) = option_map JStr (status t) /\
      dict_get "timerEntries" (KanbanTask_to_dict t)
        = option_map entries_json (timer_entries t) /\
      dict_get "targetTime" (KanbanTask_to_dict t)
        = option_map JStr (target_time t) /\
      dict_get "tags" (KanbanTask_to_dict t) = option_map str_list (tags t) /\
      dict_get "dueDate" (KanbanTask_to_dict t) = option_map JStr (due_date t) /\
      dict_get "updateDateTime" (KanbanTask_to_dict t)
        = option_map JStr (update_date_time t)) /\
  (forall m : ColumnMetadata,
      dict_keys (ColumnMetadata_to_dict m)
      = "name" :: "state" :: opt_key "icon" (icon m)
          ++ opt_key "sortField" (sort_field m)
          ++ opt_key "sortOrder" (sort_order m)
          ++ opt_key "manualSort" (manual_sort m) /\
      dict_get "name" (ColumnMetadata_to_dict m) = Some (JStr (name m)) /\
      dict_get "state" (ColumnMetadata_to_dict m)
        = Some (JStr (ColumnState_value (state m))) /\
      dict_get "icon" (ColumnMetadata_to_dict m) = option_map JStr (icon m) /\
      dict_get "sortField" (ColumnMetadata_to_dict m)
        = option_map (fun f => JStr (SortField_value f)) (sort_field m) /\
      dict_get "sortOrder" (ColumnMetadata_to_dict m)
        = option_map (fun o => JStr (SortOrder_value o)) (sort_order m) /\
      dict_get "manualSort" (ColumnMetadata_to_dict m)
        = option_map JBool (manual_sort m)) /\
  (forall d : KanbanData,
      dict_keys (KanbanData_to_dict d)
      = opt_key "tasks" (tasks d)
          ++ opt_key "columns" (columns d)
          ++ opt_key "columnMetadata" (column_metadata d)
          ++ opt_key "collapsedColumns" (collapsed_columns d)
          ++ opt_key "view" (view d)
          ++ opt_key "slimMode" (slim_mode d)
          ++ opt_key "columnWidths" (column_widths d) /\
      dict_get "tasks" (KanbanData_to_dict d) = option_map tasks_json (tasks d) /\
      dict_get "columns" (KanbanData_to_dict d) = option_map str_list (columns d) /\
      dict_get "columnMetadata" (KanbanData_to_dict d)
        = option_map metas_json (column_metadata d) /\
      dict_get "collapsedColumns" (KanbanData_to_dict d)
        = option_map str_list (collapsed_columns d) /\
      dict_get "view" (KanbanData_to_dict d)
        = option_map (fun v => JStr (KanbanView_value v)) (view d) /\
      dict_get "slimMode" (KanbanData_to_dict d) = option_map JBool (slim_mode d) /\
      dict_get "columnWidths" (KanbanData_to_dict d)
        = option_map int_dict (column_widths d)).
Proof.
  split; [|split; [|split]].
  - intros e. repeat split.
  - intros t. split; [apply KanbanTask_to_dict_keys | apply KanbanTask_to_dict_lookup].
  - intros m.
    split; [apply ColumnMetadata_to_dict_keys | apply ColumnMetadata_to_dict_lookup].
  - intros d. split; [apply KanbanData_to_dict_keys | apply KanbanData_to_dict_lookup].
Qed.

(** ** Optional fields that are set *)

(** C3: an optional field set to a value, an empty sequence included, puts
    its wire key in the [to_dict] result, bound to the converted value:
    strings and booleans as they are, enumeration members as their string,
    sequences as arrays of the converted elements (the empty sequence as the
    empty array), nested records through their own [to_dict]. *)
Theorem set_optional_fields :
  (forall (e : TimerEntry) s,
      end_time e = Some s
      -> dict_get "endTime" (TimerEntry_to_dict e) = Some (JStr s)) /\
  (forall t : KanbanTask,
      (forall s, status t = Some s
         -> dict_get "status" (KanbanTask_to_dict t) = Some (JStr s)) /\
      (forall es, timer_entries t = Some es
         -> dict_get "timerEntries" (KanbanTask_to_dict t)
            = Some (JArray (map (fun e => JObject (TimerEntry_to_dict e)) es))) /\
      (timer_entries t = Some []
         -> dict_get "timerEntries" (KanbanTask_to_dict t) = Some (JArray [])) /\
      (forall s, target_time t = Some s
         -> dict_get "targetTime" (KanbanTask_to_dict t) = Some (JStr s)) /\
      (forall l, tags t = Some l
         -> dict_get "tags" (KanbanTask_to_dict t) = Some (JArray (map JStr l))) /\
      (tags t = Some []
         -> dict_get "tags" (KanbanTask_to_dict t) = Some (JArray [])) /\
      (forall s, due_date t = Some s
         -> dict_get "dueDate" (KanbanTask_to_dict t) = Some (JStr s)) /\
      (forall s, update_date_time t = Some s
         -> dict_get "updateDateTime" (KanbanTask_to_dict t) = Some (JStr s))) /\
  (forall m : ColumnMetadata,
      (forall s, icon m = Some s
         -> dict_get "icon" (ColumnMetadata_to_dict m) = Some (JStr s)) /\
      (forall f, sort_field m = Some f
         -> dict_get "sortField" (ColumnMetadata_to_dict m)
            = Some (JStr (SortField_value f))) /\
      (forall o, sort_order m = Some o
         -> dict_get "sortOrder" (ColumnMetadata_to_dict m)
            = Some (JStr (SortOrder_value o))) /\
      (forall b, manual_sort m = Some b
         -> dict_get "manualSort" (ColumnMetadata_to_dict m) = Some (JBool b))) /\
  (forall d : KanbanData,
      (forall ts, tasks d = Some ts
         -> dict_get "tasks" (KanbanData_to_dict d)
            = Some (JArray (map (fun t => JObject (KanbanTask_to_dict t)) ts))) /\
      (tasks d = Some []
         -> dict_get "tasks" (KanbanData_to_dict d) = Some (JArray [])) /\
      (forall l, columns d = Some l
         -> dict_get "columns" (KanbanData_to_dict d) = Some (JArray (map JStr l))) /\
      (columns d = Some []
         -> dict_get "columns" (KanbanData_to_dict d) = Some (JArray [])) /\
      (forall ms, column_metadata d = Some ms
         -> dict_get "columnMetadata" (KanbanData_to_dict d)
            = Some (JArray (map (fun m => JObject (ColumnMetadata_to_dict m)) ms))) /\
      (column_metadata d = Some []
         -> dict_get "columnMetadata" (KanbanData_to_dict d) = Some (JArray [])) /\
      (forall l, collapsed_columns d = Some l
         -> dict_get "collapsedColumns" (KanbanData_to_dict d)
            = Some (JArray (map JStr l))) /\
      (collapsed_columns d = Some []
         -> dict_get "collapsedColumns" (KanbanData_to_dict d) = Some (JArray [])) /\
      (forall v, view d = Some v
         -> dict_get "view" (KanbanData_to_dict d)
            = Some (JStr (KanbanView_value v))) /\
      (forall b, slim_mode d = Some b
         -> dict_get "slimMode" (KanbanData_to_dict d) = Some (JBool b)) /\
      (forall w, column_widths d = Some w
         -> dict_get "columnWidths" (KanbanData_to_dict d)
            = Some (JObject (map (fun kv => (fst kv, JInt (snd kv))) w)))).
Proof.
  split; [|split; [|split]].
  - intros e s E. unfold TimerEntry_to_dict. rewrite E. reflexivity.
  - intros t.
    destruct (KanbanTask_to_dict_lookup t) as (_ & H1 & H2 & H3 & H4 & H5 & H6).
    repeat split; intros; 
      match goal with E : _ = Some _ |- _ => rewrite E in * end; assumption.
  - intros m.
    destruct (ColumnMetadata_to_dict_lookup m) as (_ & _ & H1 & H2 & H3 & H4).
    repeat split; intros;
      match goal with E : _ = Some _ |- _ => rewrite E in * end; assumption.
  - intros d.
    destruct (KanbanData_to_dict_lookup d) as (H1 & H2 & H3 & H4 & H5 & H6 & H7).
    repeat split; intros;
      match goal with E : _ = Some _ |- _ => rewrite E in * end; assumption.
Qed.

Lemma set_optional_fields_witness :
  dict_get "endTime" (TimerEntry_to_dict stopped_timer)
    = Some (JStr "2025-01-01T12:00:00Z") /\
  dict_get "timerEntries" (KanbanTask_to_dict full_task) = Some (JArray []) /\
  dict_get "tags" (KanbanTask_to_dict full_task) = Some (JArray []) /\
  dict_get "dueDate" (KanbanTask_to_dict full_task)
    = Some (JStr "2025-01-01T00:00:00Z") /\
  dict_get "sortField" (ColumnMetadata_to_dict full_meta) = Some (JStr "dueDate") /\
  dict_get "columns" (KanbanData_to_dict full_board) = Some (JArray []) /\
  dict_get "columnWidths" (KanbanData_to_dict full_board)
    = Some (JObject [("A", JInt 120)]).
Proof.
  destruct set_optional_fields as (He & Ht & Hm & Hd).
  split; [|split; [|split; [|split; [|split; [|split]]]]].
  - apply (He stopped_timer). reflexivity.
  - destruct (Ht full_task) as (_ & _ & H & _). apply H. reflexivity.
  - destruct (Ht full_task) as (_ & _ & _ & _ & _ & H & _). apply H. reflexivity.
  - destruct (Ht full_task) as (_ & _ & _ & _ & _ & _ & H & _).
    apply (H "2025-01-01T00:00:00Z"). reflexivity.
  - destruct (Hm full_meta) as (_ & H & _). apply (H DUE_DATE). reflexivity.
  - destruct (Hd full_board) as (_ & _ & _ & H & _). apply H. reflexivity.
  - destruct (Hd full_board) as (_ & _ & _ & _ & _ & _ & _ & _ & _ & _ & H).
    apply (H [("A", 120%Z)]). reflexivity.
Defined.

(** ** Enumerations *)

(** C4: an enumeration-typed field is emitted as the string value of its
    member ([state] always, [sort_field], [sort_order] and [view] when
    set); the values are the documented tags, [IN_PROGRESS] being
    ["in-progress"], and none of them is the member's symbolic name. *)
Theorem enums_serialize_to_tags :
  (forall m : ColumnMetadata,
      dict_get "state" (ColumnMetadata_to_dict m)
      = Some (JStr (ColumnState_value (state m)))) /\
  (forall (m : ColumnMetadata) f,
      sort_field m = Some f
      -> dict_get "sortField" (ColumnMetadata_to_dict m)
         = Some (JStr (SortField_value f))) /\
  (forall (m : ColumnMetadata) o,
      sort_order m = Some o
      -> dict_get "sortOrder" (ColumnMetadata_to_dict m)
         = Some (JStr (SortOrder_value o))) /\
  (forall (d : KanbanData) v,
      view d = Some v
      -> dict_get "view" (KanbanData_to_dict d) = Some (JStr (KanbanView_value v))) /\
  map ColumnState_value [TODO; IN_PROGRESS; PENDING; DONE]
    = ["todo"; "in-progress"; "pending"; "done"] /\
  map SortField_value [UPDATE_DATE_TIME; DUE_DATE; TITLE; TIME_SPENT]
    = ["updateDateTime"; "dueDate"; "title"; "timeSpent"] /\
  map SortOrder_value [ASC; DESC] = ["asc"; "desc"] /\
  map KanbanView_value [HORIZONTAL; VERTICAL; TABLE]
    = ["horizontal"; "vertical"; "table"] /\
  (forall s, ColumnState_value s <> ColumnState_name s) /\
  (forall f, SortField_value f <> SortField_name f) /\
  (forall o, SortOrder_value o <> SortOrder_name o) /\
  (forall v, KanbanView_value v <> KanbanView_name v).
Proof.
  repeat match goal with |- _ /\ _ => split end; try reflexivity.
  - intros m. apply ColumnMetadata_to_dict_lookup.
  - intros m f E.
    destruct (ColumnMetadata_to_dict_lookup m) as (_ & _ & _ & H & _).
    now rewrite E in H.
  - intros m o E.
    destruct (ColumnMetadata_to_dict_lookup m) as (_ & _ & _ & _ & H & _).
    now rewrite E in H.
  - intros d v E.
    destruct (KanbanData_to_dict_lookup d) as (_ & _ & _ & _ & H & _).
    now rewrite E in H.
  - intros []; discriminate.
  - intros []; discriminate.
  - intros []; discriminate.
  - intros []; discriminate.
Qed.

Lemma enums_serialize_to_tags_witness :
  dict_get "state" (ColumnMetadata_to_dict full_meta) = Some (JStr "in-progress") /\
  dict_get "sortField" (ColumnMetadata_to_dict full_meta) = Some (JStr "dueDate") /\
  dict_get "sortOrder" (ColumnMetadata_to_dict full_meta) = Some (JStr "desc") /\
  dict_get "view" (KanbanData_to_dict full_board) = Some (JStr "table").
Proof.
  destruct enums_serialize_to_tags as (Hs & Hf & Ho & Hv & _).
  split; [|split; [|split]].
  - apply (Hs full_meta).
  - apply (Hf full_meta DUE_DATE). reflexivity.
  - apply (Ho full_meta DESC). reflexivity.
  - apply (Hv full_board TABLE). reflexivity.
Defined.

(** ** Required fields *)

(** C10: the keys of the required fields are in every result, whatever the
    optional fields hold: ["task"] for [KanbanTask], ["name"] and ["state"]
    for [ColumnMetadata], ["startTime"] for [TimerEntry]. *)
Theorem required_keys_present :
  (forall t : KanbanTask,
      In "task" (dict_keys (KanbanTask_to_dict t)) /\
      dict_get "task" (KanbanTask_to_dict t) = Some (JStr (task t))) /\
  (forall m : ColumnMetadata,
      In "name" (dict_keys (ColumnMetadata_to_dict m)) /\
      In "state" (dict_keys (ColumnMetadata_to_dict m)) /\
      dict_get "name" (ColumnMetadata_to_dict m) = Some (JStr (name m)) /\
      dict_get "state" (ColumnMetadata_to_dict m)
        = Some (JStr (ColumnState_value (state m)))) /\
  (forall e : TimerEntry,
      In "startTime" (dict_keys (TimerEntry_to_dict e)) /\
      dict_get "startTime" (TimerEntry_to_dict e) = Some (JStr (start_time e))).
Proof.
  split; [|split].
  - intros t. rewrite KanbanTask_to_dict_keys.
    split; [now left | apply KanbanTask_to_dict_lookup].
  - intros m. rewrite ColumnMetadata_to_dict_keys.
    destruct (ColumnMetadata_to_dict_lookup m) as (H1 & H2 & _).
    repeat split; auto; simpl; auto.
  - intros e. split; [now left | reflexivity].
Qed.

(** ** The examples of the specification *)

(** C5: the task "Write docs" with status "To Do" and a due date converts to
    the dictionary with exactly the keys [task], [status] and [dueDate], in
    that order; [timerEntries], [targetTime], [tags] and [updateDateTime]
    are not among its keys. *)
Theorem write_docs_to_dict :
  KanbanTask_to_dict write_docs
    = [ ("task", JStr "Write docs");
        ("status", JStr "To Do");
        ("dueDate", JStr "2025-01-01T00:00:00Z") ] /\
  dict_get "timerEntries" (KanbanTask_to_dict write_docs) = None /\
  dict_get "targetTime" (KanbanTask_to_dict write_docs) = None /\
  dict_get "tags" (KanbanTask_to_dict write_docs) = None /\
  dict_get "updateDateTime" (KanbanTask_to_dict write_docs) = None.
Proof. repeat split. Qed.

(** C7: a board with only [columns=["A", "B"]] converts to the dictionary
    with the single key [columns], bound to the array of ["A"] then ["B"]. *)
Theorem columns_only_to_dict :
  KanbanData_to_dict columns_only = [ ("columns", JArray [JStr "A"; JStr "B"]) ].
Proof. reflexivity. Qed.

(** C6: the simple format is the list of the tasks' dictionaries and nothing
    around it: an array with one object per task, in order; for tasks that
    set only [task] and [status] every object has exactly these two keys;
    and the three tasks of [main] give the array, and the text, below. *)
Theorem simple_format_bare_array :
  (forall ts : list KanbanTask,
      exists items,
        simple_format ts = JArray items /\
        Forall2 (fun t item => item = JObject (KanbanTask_to_dict t)) ts items) /\
  (forall l : list (string * string),
      simple_format (map (fun p => KanbanTask_task_status (fst p) (snd p)) l)
      = JArray (map (fun p => JObject [ ("task", JStr (fst p));
                                        ("status", JStr (snd p)) ]) l)) /\
  simple_format simple_tasks
    = JArray [ JObject [ ("task", JStr "Task 1"); ("status", JStr "todo") ];
               JObject [ ("task", JStr "Task 2"); ("status", JStr "in progress") ];
               JObject [ ("task", JStr "Task 3"); ("status", JStr "done") ] ] /\
  simple_json simple_tasks
    = String.concat newline
        [ "[";
          "  {";
          "    " +:+ quoted "task" +:+ ": " +:+ quoted "Task 1" +:+ ",";
          "    " +:+ quoted "status" +:+ ": " +:+ quoted "todo";
          "  },";
          "  {";
          "    " +:+ quoted "task" +:+ ": " +:+ quoted "Task 2" +:+ ",";
          "    " +:+ quoted "status" +:+ ": " +:+ quoted "in progress";
          "  },";
          "  {";
          "    " +:+ quoted "task" +:+ ": " +:+ quoted "Task 3" +:+ ",";
          "    " +:+ quoted "status" +:+ ": " +:+ quoted "done";
          "  }";
          "]" ].
Proof.
  split; [|split; [|split]].
  - intros ts. eexists. split; [reflexivity|].
    induction ts as [|t ts IH]; simpl; constructor; auto.
  - intros l. unfold simple_format. rewrite map_map. reflexivity.
  - reflexivity.
  - vm_compute. reflexivity.
Qed.

(** ** The text produced by [to_json] *)

Lemma str_app_assoc (a b c : string) : (a +:+ b) +:+ c = a +:+ (b +:+ c).
Proof. induction a as [|x a IH]; simpl; congruence. Qed.

Lemma spaces_add (a b : nat) : spaces (a + b) = spaces a +:+ spaces b.
Proof. induction a as [|a IH]; simpl; congruence. Qed.

Lemma concat_repeat_spaces (w k : nat) :
  String.concat EmptyString (repeat (spaces w) k) = spaces (k * w).
Proof.
  induction k as [|k IH]; [reflexivity|].
  simpl repeat. simpl Nat.mul. rewrite spaces_add, <- IH.
  destruct (repeat (spaces w) k) as [|x xs]; simpl.
  - generalize (spaces w) as s. induction s as [|c s IHs]; simpl; congruence.
  - reflexivity.
Qed.

Lemma str_mul_space (n : Z) : str_mul " " n = spaces (Z.to_nat n).
Proof.
  unfold str_mul. change " " with (spaces 1).
  rewrite concat_repeat_spaces. now rewrite Nat.mul_1_r.
Qed.

Lemma newline_indent_spaces (n : Z) (level : nat) :
  newline_indent (str_mul " " n) level
  = newline +:+ spaces (level * Z.to_nat n).
Proof.
  unfold newline_indent, str_mul at 1. rewrite Nat2Z.id, str_mul_space.
  now rewrite concat_repeat_spaces.
Qed.

Lemma escape_char_non_ascii (c : ascii) :
  (128 <= N_of_ascii c)%N -> escape_char c = String c EmptyString.
Proof.
  intros H. unfold escape_char.
  repeat match goal with
         | |- context [(?a =? ?b)%N] =>
             destruct (N.eqb_spec a b); [lia|]
         | |- context [(?a <? ?b)%N] =>
             destruct (N.ltb_spec a b); [lia|]
         end.
  reflexivity.
Qed.

Lemma escape_str_non_ascii (s : string) : non_ascii s -> escape_str s = s.
Proof.
  unfold non_ascii. induction s as [|c s IH]; simpl; intros H; [reflexivity|].
  inversion H; subst. rewrite escape_char_non_ascii by assumption.
  simpl. now rewrite IH.
Qed.

(** C8: [to_json] writes the [to_dict] result as text with the requested
    number of spaces per nesting level, two when the argument is left out,
    through the encoder that does not escape non-ASCII characters: a string
    made of non-ASCII characters is written between quotes as it is, and the
    icon ["📋"] of a column appears literally in the text, at every width
    (the encoder of [ensure_ascii=True] would write it as two escapes). *)
Theorem to_json_text :
  (forall d : KanbanData, KanbanData_to_json d None = KanbanData_to_json d (Some 2%Z)) /\
  (forall (d : KanbanData) (n : Z),
      KanbanData_to_json d (Some n)
      = json_dumps (JObject (KanbanData_to_dict d)) (Some n) false) /\
  (forall n : Z,
      let w := Z.to_nat n in
      KanbanData_to_json emoji_board (Some n)
      = "{" +:+ newline
        +:+ spaces (1 * w) +:+ quoted "columnMetadata" +:+ ": [" +:+ newline
        +:+ spaces (2 * w) +:+ "{" +:+ newline
        +:+ spaces (3 * w) +:+ quoted "name" +:+ ": " +:+ quoted "Backlog"
        +:+ "," +:+ newline
        +:+ spaces (3 * w) +:+ quoted "state" +:+ ": " +:+ quoted "todo"
        +:+ "," +:+ newline
        +:+ spaces (3 * w) +:+ quoted "icon" +:+ ": " +:+ quoted "📋" +:+ newline
        +:+ spaces (2 * w) +:+ "}" +:+ newline
        +:+ spaces (1 * w) +:+ "]" +:+ newline
        +:+ "}") /\
  (forall c : ascii,
      (128 <= N_of_ascii c)%N -> escape_char c = String c EmptyString) /\
  (forall s : string, non_ascii s -> encode_basestring s = quoted s) /\
  encode_basestring "📋" = quoted "📋" /\
  encode_basestring_ascii "📋" = quoted "\ud83d\udccb".
Proof.
  repeat match goal with |- _ /\ _ => split end; try reflexivity.
  - intros n w.
    unfold KanbanData_to_json, json_dumps. cbn [option_map].
    cbn [KanbanData_to_dict emoji_board tasks columns column_metadata
         collapsed_columns view slim_mode column_widths].
    cbn [dict_set map ColumnMetadata_to_dict name state icon sort_field
         sort_order manual_sort].
    cbn [String.eqb Ascii.eqb Bool.eqb ColumnState_value].
    cbn [iterencode map fst snd String.concat].
    rewrite !newline_indent_spaces. fold w.
    cbn [Nat.mul Nat.add]. rewrite !Nat.add_0_r.
    change (encode_basestring "columnMetadata") with (quoted "columnMetadata").
    change (encode_basestring "name") with (quoted "name").
    change (encode_basestring "state") with (quoted "state").
    change (encode_basestring "icon") with (quoted "icon").
    change (encode_basestring "Backlog") with (quoted "Backlog").
    change (encode_basestring "todo") with (quoted "todo").
    change (encode_basestring "📋") with (quoted "📋").
    generalize (spaces w) (spaces (w + w)) (spaces (w + (w + w))).
    intros s1 s2 s3. unfold newline.
    repeat (rewrite !str_app_assoc; simpl).
    reflexivity.
  - apply escape_char_non_ascii.
  - intros s H. unfold encode_basestring, quoted.
    now rewrite escape_str_non_ascii.
Qed.

Lemma to_json_text_witness :
  escape_char (ascii_of_N 240) = String (ascii_of_N 240) EmptyString /\
  encode_basestring "📋" = quoted "📋".
Proof.
  destruct to_json_text as (_ & _ & _ & Hc & Hs & _).
  split.
  - apply (Hc (ascii_of_N 240)). vm_compute. discriminate.
  - apply (Hs "📋"). unfold non_ascii. simpl.
    repeat constructor; vm_compute; discriminate.
Defined.

(** ** The methods on the object store compute the same values *)

Section StoreRefinement.
Implicit Types (G h H Δ : Store.heap) (v c self : Store.val) (j : json).

(** *** Running computations *)

Lemma bind_run {A B : Type} (m : Store.Py A) (f : A -> Store.Py B) h x h' :
  m h = Some (x, h') -> Store.bind m f h = f x h'.
Proof. intros E. unfold Store.bind. now rewrite E. Qed.

Lemma bind_assoc {A B C : Type} (m : Store.Py A) (f : A -> Store.Py B)
    (g : B -> Store.Py C) h :
  Store.bind m (fun x => Store.bind (f x) g) h = Store.bind (Store.bind m f) g h.
Proof. unfold Store.bind. destruct (m h) as [[x h']|]; reflexivity. Qed.

Lemma instance_attrs_inv cls G self attrs :
  Store.instance_attrs cls G self = Some attrs ->
  exists l, self = Store.VRef l /\ G !! l = Some (Store.OInstance cls attrs).
Proof.
  unfold Store.instance_attrs. intros E.
  destruct self as [| | | | | | | |l]; try discriminate.
  destruct (G !! l) as [[| |c a]|] eqn:El; try discriminate.
  destruct (String.eqb_spec c cls); [|discriminate].
  injection E as ->. subst. eauto.
Qed.

Lemma getattr_run cls G h self attrs a v :
  G ⊆ h ->
  Store.instance_attrs cls G self = Some attrs ->
  dict_get a attrs = Some v ->
  Store.getattr self a h = Some (v, h).
Proof.
  intros Hsub Hi Ha. apply instance_attrs_inv in Hi as (l & -> & Hl).
  unfold Store.getattr, Store.bind, Store.deref.
  rewrite (lookup_weaken _ _ _ _ Hl Hsub). now rewrite Ha.
Qed.

Lemma method_run cls G h self attrs (f : Store.val -> Store.Py Store.val) :
  G ⊆ h ->
  Store.instance_attrs cls G self = Some attrs ->
  Store.method cls f self h = f self h.
Proof.
  intros Hsub Hi. apply instance_attrs_inv in Hi as (l & -> & Hl).
  unfold Store.method, Store.bind, Store.deref.
  rewrite (lookup_weaken _ _ _ _ Hl Hsub). now rewrite String.eqb_refl.
Qed.

Lemma read_attr_inv {A : Type} (rd : Store.val -> option A) a attrs x :
  Store.read_attr rd a attrs = Some x ->
  exists v, dict_get a attrs = Some v /\ rd v = Some x.
Proof.
  unfold Store.read_attr. destruct (dict_get a attrs) as [v|]; simpl; [eauto|discriminate].
Qed.

Lemma new_fresh h : h !! fresh (dom h) = None.
Proof. apply not_elem_of_dom, is_fresh. Qed.

(** *** Reading is stable under heap growth *)

Lemma mapM_option_mono {A B : Type} (f g : A -> option B) (l : list A) k :
  (forall x y, x ∈ l -> f x = Some y -> g x = Some y) ->
  mapM f l = Some k -> mapM g l = Some k.
Proof.
  revert k. induction l as [|x l IH]; intros k Hfg E; [exact E|].
  simpl in *. destruct (f x) as [y|] eqn:Ex; simpl in E; [|discriminate].
  rewrite (Hfg x y) by (auto; constructor). simpl.
  destruct (mapM f l) as [k'|] eqn:El; simpl in E; [|discriminate].
  rewrite (IH k') by (auto; intros; apply Hfg; auto; now constructor).
  exact E.
Qed.

Lemma read_json_mono fuel G G' v j :
  G ⊆ G' -> Store.read_json fuel G v = Some j -> Store.read_json fuel G' v = Some j.
Proof.
  intros Hsub. revert v j. induction fuel as [|fuel IH]; intros v j E; [discriminate|].
  destruct v as [| | | | | | | |l]; try exact E.
  simpl in *. destruct (G !! l) as [o|] eqn:El; [|discriminate].
  rewrite (lookup_weaken _ _ _ _ El Hsub).
  destruct o as [items|items|]; [| |discriminate].
  - destruct (mapM (Store.read_json fuel G) items) as [k|] eqn:Ek; [|discriminate].
    erewrite mapM_option_mono; [exact E| |exact Ek]. intros; now apply IH.
  - match type of E with
    | _ <$> mapM ?f items = _ => destruct (mapM f items) as [k|] eqn:Ek; [|discriminate]
    end.
    erewrite mapM_option_mono; [exact E| |exact Ek].
    intros [k0 v0] y _. simpl.
    destruct (Store.read_json fuel G v0) as [j0|] eqn:E0; [|discriminate].
    now rewrite (IH _ _ E0).
Qed.

Lemma read_items_mono fuel G G' items d :
  G ⊆ G' -> read_items fuel G items = Some d -> read_items fuel G' items = Some d.
Proof.
  intros Hsub. unfold read_items. apply mapM_option_mono.
  intros [k v] y _. simpl.
  destruct (Store.read_json fuel G v) as [j0|] eqn:E0; [|discriminate].
  now rewrite (read_json_mono _ _ _ _ _ Hsub E0).
Qed.

Lemma read_items_dict_set fuel G items d k v j :
  read_items fuel G items = Some d ->
  Store.read_json fuel G v = Some j ->
  read_items fuel G (dict_set k v items) = Some (dict_set k j d).
Proof.
  unfold read_items. revert d.
  induction items as [|[k0 v0] items IH]; intros d Hd Hv; simpl in *.
  - injection Hd as <-. now rewrite Hv.
  - destruct (Store.read_json fuel G v0) as [j0|] eqn:E0; [|discriminate].
    simpl in Hd.
    match type of Hd with
    | context [mapM ?f items] => destruct (mapM f items) as [d'|] eqn:Ed; [|discriminate]
    end.
    simpl in Hd. injection Hd as <-. simpl.
    destruct (String.eqb k k0); simpl.
    + rewrite Hv. simpl. now rewrite Ed.
    + rewrite E0. simpl. now rewrite (IH d' eq_refl Hv).
Qed.


(** *** Building a dictionary *)

Lemma building_new G h items d n :
  G ⊆ h ->
  (forall fuel, n <= fuel -> read_items fuel G items = Some d) ->
  exists r H,
    Store.new (Store.ODict items) h = Some (Store.VRef r, H) /\
    building G h r H d n.
Proof.
  intros Hsub Hread. set (r := fresh (dom h)).
  assert (Hr : h !! r = None) by apply new_fresh.
  exists r, (<[r := Store.ODict items]> h). split; [reflexivity|].
  exists {[r := Store.ODict items]}, items. repeat split.
  - now apply insert_union_singleton_r.
  - now apply map_disjoint_singleton_l.
  - apply lookup_singleton_eq.
  - intros fuel Hf. rewrite delete_singleton_eq, (right_id_L ∅ (∪)). auto.
Qed.

Lemma building_heap G h r H d n :
  G ⊆ h -> building G h r H d n -> G ⊆ H.
Proof.
  intros Hsub (Δ & items & -> & _). now apply map_union_subseteq_l'.
Qed.

Lemma building_assign G h r H d n (m : Store.Py Store.val) k j :
  G ⊆ h ->
  building G h r H d n ->
  (forall h', G ⊆ h' -> returns G h' m j n) ->
  exists H',
    Store.bind m (fun v => Store.setitem (Store.VRef r) k v) H = Some (tt, H') /\
    building G h r H' (dict_set k j d) n.
Proof.
  intros Hsub Hb Hm. pose proof (building_heap _ _ _ _ _ _ Hsub Hb) as HGH.
  destruct Hb as (Δ & items & -> & Hdisj & Hr & Hitems).
  destruct (Hm _ HGH) as (v & Δs & Hrun & Hdisj_s & Hv).
  assert (Hhr : h !! r = None) by (eapply map_disjoint_Some_l; eauto).
  assert (Hsr : Δs !! r = None).
  { eapply map_disjoint_Some_r; [exact Hdisj_s|].
    rewrite lookup_union_r by exact Hhr. exact Hr. }
  apply map_disjoint_union_r in Hdisj_s as [Hsh HsΔ].
  exists (h ∪ <[r := Store.ODict (dict_set k v items)]> (Δ ∪ Δs)). split.
  - rewrite (bind_run _ _ _ _ _ Hrun). unfold Store.setitem.
    rewrite <- (assoc_L (∪)).
    rewrite lookup_union_r by exact Hhr.
    rewrite (lookup_union_Some_l _ _ _ _ Hr).
    now rewrite insert_union_r by exact Hhr.
  - exists (<[r := Store.ODict (dict_set k v items)]> (Δ ∪ Δs)), (dict_set k v items).
    repeat split.
    + apply map_disjoint_insert_l_2; [exact Hhr|].
      apply map_disjoint_union_l_2; [exact Hdisj | exact Hsh].
    + apply lookup_insert_eq.
    + intros fuel Hf. rewrite delete_insert_eq, delete_union.
      rewrite (delete_id Δs) by exact Hsr.
      assert (Hd : delete r Δ ##ₘ Δs).
      { apply map_disjoint_delete_l. now symmetry. }
      apply read_items_dict_set.
      * eapply read_items_mono; [|apply Hitems; exact Hf].
        apply map_union_mono_l, map_union_subseteq_l.
      * eapply read_json_mono; [|apply Hv; exact Hf].
        apply map_union_mono_l. now apply map_union_subseteq_r.
Qed.

Lemma building_returns G h r H d n (m : Store.Py Store.val) :
  G ⊆ h ->
  m h = Some (Store.VRef r, H) ->
  building G h r H d n ->
  returns G h m (JObject d) (S n).
Proof.
  intros Hsub Hrun (Δ & items & -> & Hdisj & Hr & Hitems).
  exists (Store.VRef r), Δ. repeat split; [exact Hrun | exact Hdisj|].
  intros [|fuel] Hf; [lia|]. simpl.
  assert (Hhr : h !! r = None) by (eapply map_disjoint_Some_l; eauto).
  assert (HGr : G !! r = None).
  { destruct (G !! r) as [o|] eqn:EG; [|reflexivity].
    rewrite (lookup_weaken _ _ _ _ EG Hsub) in Hhr. discriminate. }
  rewrite (lookup_union_r G Δ r HGr), Hr.
  assert (Hread : read_items fuel (G ∪ Δ) items = Some d).
  { eapply read_items_mono; [|apply Hitems; lia].
    apply map_union_mono_l, delete_subseteq. }
  unfold read_items in Hread. now rewrite Hread.
Qed.

(** *** The value assigned to a key *)

Lemma read_optional_inv {A : Type} (rd : Store.val -> option A) c o :
  Store.read_optional rd c = Some o ->
  (c = Store.VNone /\ o = None) \/
  (Store.is_not_None c = true /\ exists x, o = Some x /\ rd c = Some x).
Proof.
  destruct c; simpl; intros E;
    try (right; split; [reflexivity|];
         match type of E with
         | Some <$> ?e = _ => destruct e as [x|]; [|discriminate]
         end;
         injection E as <-; eauto).
  left. injection E as <-. auto.
Qed.

Lemma returns_weaken G h (m : Store.Py Store.val) j n n' :
  n <= n' -> returns G h m j n -> returns G h m j n'.
Proof.
  intros Hn (r & Δ & Hrun & Hd & Hread). exists r, Δ. repeat split; auto.
  intros fuel Hf. apply Hread. lia.
Qed.

Lemma returns_getattr cls G h' self attrs a c j n :
  G ⊆ h' ->
  Store.instance_attrs cls G self = Some attrs ->
  dict_get a attrs = Some c ->
  (forall fuel, n <= fuel -> Store.read_json fuel G c = Some j) ->
  returns G h' (Store.getattr self a) j n.
Proof.
  intros Hsub Hi Ha Hc. exists c, ∅. repeat split.
  - rewrite (right_id_L ∅ (∪)). eapply getattr_run; eauto.
  - apply map_disjoint_empty_l.
  - intros fuel Hf. rewrite (right_id_L ∅ (∪)). auto.
Qed.

Lemma returns_enum cls G h' self attrs a c s n :
  G ⊆ h' ->
  Store.instance_attrs cls G self = Some attrs ->
  dict_get a attrs = Some c ->
  Store.enum_value c = Store.ret (Store.VStr s) ->
  1 <= n ->
  returns G h' (Store.bind (Store.getattr self a) Store.enum_value) (JStr s) n.
Proof.
  intros Hsub Hi Ha Hc Hn. exists (Store.VStr s), ∅. repeat split.
  - rewrite (right_id_L ∅ (∪)).
    rewrite (bind_run _ _ _ _ _ (getattr_run _ _ _ _ _ _ _ Hsub Hi Ha)).
    now rewrite Hc.
  - apply map_disjoint_empty_l.
  - intros [|fuel] Hf; [lia|reflexivity].
Qed.

Lemma for_each_frame {A : Type} (rd : Store.val -> option A) (conv : A -> json)
    (f : Store.val -> Store.Py Store.val) G n :
  (forall h v x, G ⊆ h -> rd v = Some x -> returns G h (f v) (conv x) n) ->
  forall items xs h,
    G ⊆ h ->
    mapM rd items = Some xs ->
    exists rs Δ,
      Store.for_each f items h = Some (rs, h ∪ Δ) /\
      Δ ##ₘ h /\
      forall fuel, n <= fuel ->
        mapM (Store.read_json fuel (G ∪ Δ)) rs = Some (map conv xs).
Proof.
  intros Hf. induction items as [|v items IH]; intros xs h Hsub Hxs.
  - injection Hxs as <-. exists [], ∅. repeat split.
    + simpl. unfold Store.ret. now rewrite (right_id_L ∅ (∪)).
    + apply map_disjoint_empty_l.
  - simpl in Hxs. destruct (rd v) as [x|] eqn:Ex; [|discriminate]. simpl in Hxs.
    destruct (mapM rd items) as [xs'|] eqn:Exs; [|discriminate].
    injection Hxs as <-.
    destruct (Hf h v x Hsub Ex) as (r1 & Δ1 & Hrun1 & Hd1 & Hread1).
    assert (Hsub1 : G ⊆ h ∪ Δ1) by now apply map_union_subseteq_l'.
    destruct (IH xs' (h ∪ Δ1) Hsub1 eq_refl) as (rs & Δ2 & Hrun2 & Hd2 & Hread2).
    apply map_disjoint_union_r in Hd2 as [Hd2h Hd21].
    exists (r1 :: rs), (Δ1 ∪ Δ2). repeat split.
    + simpl. rewrite (bind_run _ _ _ _ _ Hrun1), (bind_run _ _ _ _ _ Hrun2).
      unfold Store.ret. now rewrite (assoc_L (∪)).
    + now apply map_disjoint_union_l_2.
    + intros fuel Hfuel. simpl.
      rewrite (read_json_mono fuel (G ∪ Δ1) _ r1 (conv x)); [|
        apply map_union_mono_l, map_union_subseteq_l | now apply Hread1].
      simpl.
      rewrite (mapM_option_mono (Store.read_json fuel (G ∪ Δ2)) _ rs (map conv xs'));
        [reflexivity| |now apply Hread2].
      intros y jy _. apply read_json_mono.
      apply map_union_mono_l. apply map_union_subseteq_r. now symmetry.
Qed.

Lemma returns_comprehension {A : Type} (rd : Store.val -> option A)
    (conv : A -> json) (f : Store.val -> Store.Py Store.val)
    cls G h' self attrs a c xs n :
  G ⊆ h' ->
  Store.instance_attrs cls G self = Some attrs ->
  dict_get a attrs = Some c ->
  Store.read_list rd G c = Some xs ->
  (forall h v x, G ⊆ h -> rd v = Some x -> returns G h (f v) (conv x) n) ->
  returns G h'
    (Store.bind (Store.getattr self a) (fun xs =>
     Store.bind (Store.iterate xs) (fun items =>
     Store.bind (Store.for_each f items) (fun ds =>
     Store.new (Store.OList ds)))))
    (JArray (map conv xs)) (S n).
Proof.
  intros Hsub Hi Ha Hc Hf.
  unfold Store.read_list in Hc.
  destruct c as [| | | | | | | |l]; try discriminate.
  destruct (G !! l) as [[items| |]|] eqn:El; try discriminate.
  destruct (for_each_frame rd conv f G n Hf items xs h' Hsub Hc)
    as (rs & Δ & Hrun & Hd & Hread).
  set (l' := fresh (dom (h' ∪ Δ))).
  assert (Hl' : (h' ∪ Δ) !! l' = None) by apply new_fresh.
  apply lookup_union_None in Hl' as [Hl'h Hl'Δ].
  assert (Hl'G : G !! l' = None).
  { destruct (G !! l') as [o|] eqn:EG; [|reflexivity].
    rewrite (lookup_weaken _ _ _ _ EG Hsub) in Hl'h. discriminate. }
  exists (Store.VRef l'), (Δ ∪ {[l' := Store.OList rs]}). repeat split.
  - rewrite (bind_run _ _ _ _ _ (getattr_run _ _ _ _ _ _ _ Hsub Hi Ha)).
    assert (Hit : Store.iterate (Store.VRef l) h' = Some (items, h')).
    { unfold Store.iterate, Store.bind, Store.deref.
      now rewrite (lookup_weaken _ _ _ _ El Hsub). }
    rewrite (bind_run _ _ _ _ _ Hit), (bind_run _ _ _ _ _ Hrun).
    unfold Store.new. fold l'. simpl.
    rewrite insert_union_singleton_r by (apply lookup_union_None; auto).
    now rewrite (assoc_L (∪)).
  - apply map_disjoint_union_l_2; [exact Hd|].
    now apply map_disjoint_singleton_l.
  - intros [|fuel] Hfuel; [lia|]. simpl.
    assert (Hlook : (G ∪ (Δ ∪ {[l' := Store.OList rs]})) !! l'
                    = Some (Store.OList rs)).
    { rewrite lookup_union_r by exact Hl'G.
      rewrite lookup_union_r by exact Hl'Δ. apply lookup_singleton_eq. }
    rewrite Hlook.
    rewrite (mapM_option_mono (Store.read_json fuel (G ∪ Δ)) _ rs (map conv xs));
      [reflexivity| |apply Hread; lia].
    intros y jy _. apply read_json_mono.
    apply map_union_mono_l, map_union_subseteq_l.
Qed.

(** One guarded assignment of a [to_dict]:
    [if self.a is not None: result[k] = ...]. *)
Lemma step_field {A : Type} (rd : Store.val -> option A) (conv : A -> json)
    cls G h r H d n self attrs a k (o : option A)
    (body : Store.Py unit) (m : Store.Py Store.val) :
  G ⊆ h ->
  building G h r H d n ->
  Store.instance_attrs cls G self = Some attrs ->
  Store.read_attr (Store.read_optional rd) a attrs = Some o ->
  (forall H0, body H0
              = Store.bind m (fun v => Store.setitem (Store.VRef r) k v) H0) ->
  (forall c x, dict_get a attrs = Some c -> rd c = Some x ->
               forall h', G ⊆ h' -> returns G h' m (conv x) n) ->
  exists H',
    Store.bind (Store.getattr self a)
      (fun c => if Store.is_not_None c then body else Store.ret tt) H
    = Some (tt, H') /\
    building G h r H'
      (match o with Some x => dict_set k (conv x) d | None => d end) n.
Proof.
  intros Hsub Hb Hi Ha Hbody Hm.
  apply read_attr_inv in Ha as (c & Hc & Ho).
  pose proof (building_heap _ _ _ _ _ _ Hsub Hb) as HGH.
  rewrite (bind_run _ _ _ _ _ (getattr_run _ _ _ _ _ _ _ HGH Hi Hc)).
  apply read_optional_inv in Ho as [[-> ->]|(Hnn & x & -> & Hx)].
  - exists H. split; [reflexivity | exact Hb].
  - rewrite Hnn, Hbody.
    apply (building_assign G h r H d n m k (conv x) Hsub Hb).
    intros h' Hh'. eapply Hm; eauto.
Qed.


Lemma step_plain {A : Type} (rd : Store.val -> option A) (conv : A -> json)
    cls G h r H d n self attrs a k (o : option A) :
  G ⊆ h ->
  building G h r H d n ->
  Store.instance_attrs cls G self = Some attrs ->
  Store.read_attr (Store.read_optional rd) a attrs = Some o ->
  (forall c x, rd c = Some x ->
     forall fuel, n <= fuel -> Store.read_json fuel G c = Some (conv x)) ->
  exists H',
    Store.bind (Store.getattr self a)
      (fun c => if Store.is_not_None c
                then Store.bind (Store.getattr self a)
                       (fun v => Store.setitem (Store.VRef r) k v)
                else Store.ret tt) H
    = Some (tt, H') /\
    building G h r H'
      (match o with Some x => dict_set k (conv x) d | None => d end) n.
Proof.
  intros Hsub Hb Hi Ha Hrd.
  apply (step_field rd conv cls G h r H d n self attrs a k o _
           (Store.getattr self a) Hsub Hb Hi Ha); [reflexivity|].
  intros c x Hc Hx h' Hh'. eapply returns_getattr; eauto.
Qed.

Lemma step_enum {A : Type} (rd : Store.val -> option A) (tag : A -> string)
    cls G h r H d n self attrs a k (o : option A) :
  G ⊆ h ->
  building G h r H d n ->
  Store.instance_attrs cls G self = Some attrs ->
  Store.read_attr (Store.read_optional rd) a attrs = Some o ->
  (forall c x, rd c = Some x ->
     Store.enum_value c = Store.ret (Store.VStr (tag x))) ->
  1 <= n ->
  exists H',
    Store.bind (Store.getattr self a)
      (fun c => if Store.is_not_None c
                then Store.bind (Store.getattr self a) (fun m =>
                     Store.bind (Store.enum_value m) (fun v =>
                     Store.setitem (Store.VRef r) k v))
                else Store.ret tt) H
    = Some (tt, H') /\
    building G h r H'
      (match o with Some x => dict_set k (JStr (tag x)) d | None => d end) n.
Proof.
  intros Hsub Hb Hi Ha Hrd Hn.
  apply (step_field rd (fun x => JStr (tag x)) cls G h r H d n self attrs a k o _
           (Store.bind (Store.getattr self a) Store.enum_value) Hsub Hb Hi Ha).
  - intros H0. now rewrite <- bind_assoc.
  - intros c x Hc Hx h' Hh'. eapply returns_enum; eauto.
Qed.

Lemma step_loop {A : Type} (rd : Store.val -> option A) (conv : A -> json)
    (f : Store.val -> Store.Py Store.val)
    cls G h r H d n n0 self attrs a k (o : option (list A)) :
  G ⊆ h ->
  building G h r H d n ->
  Store.instance_attrs cls G self = Some attrs ->
  Store.read_attr (Store.read_optional (Store.read_list rd G)) a attrs = Some o ->
  (forall h0 v x, G ⊆ h0 -> rd v = Some x -> returns G h0 (f v) (conv x) n0) ->
  S n0 <= n ->
  exists H',
    Store.bind (Store.getattr self a)
      (fun c => if Store.is_not_None c
                then Store.bind (Store.getattr self a) (fun xs =>
                     Store.bind (Store.iterate xs) (fun items =>
                     Store.bind (Store.for_each f items) (fun ds =>
                     Store.bind (Store.new (Store.OList ds)) (fun v =>
                     Store.setitem (Store.VRef r) k v))))
                else Store.ret tt) H
    = Some (tt, H') /\
    building G h r H'
      (match o with
       | Some xs => dict_set k (JArray (map conv xs)) d
       | None => d
       end) n.
Proof.
  intros Hsub Hb Hi Ha Hf Hn.
  apply (step_field (Store.read_list rd G) (fun xs => JArray (map conv xs))
           cls G h r H d n self attrs a k o _
           (Store.bind (Store.getattr self a) (fun xs =>
            Store.bind (Store.iterate xs) (fun items =>
            Store.bind (Store.for_each f items) (fun ds =>
            Store.new (Store.OList ds))))) Hsub Hb Hi Ha).
  - intros H0. unfold Store.bind.
    repeat match goal with
           | |- context [match ?e with Some _ => _ | None => _ end] =>
               destruct e as [[? ?]|]; try reflexivity
           end.
  - intros c xs Hc Hxs h' Hh'. apply (returns_weaken _ _ _ _ (S n0)); [exact Hn|].
    eapply returns_comprehension; eauto.
Qed.

(** *** Values of the input, as [json.dumps] reads them *)

Lemma read_str_json G c s fuel :
  Store.read_str c = Some s -> 1 <= fuel -> Store.read_json fuel G c = Some (JStr s).
Proof.
  destruct c; try discriminate. intros [= ->] Hf.
  destruct fuel; [lia|reflexivity].
Qed.

Lemma read_bool_json G c b fuel :
  Store.read_bool c = Some b -> 1 <= fuel -> Store.read_json fuel G c = Some (JBool b).
Proof.
  destruct c; try discriminate. intros [= ->] Hf.
  destruct fuel; [lia|reflexivity].
Qed.

Lemma read_opt_str_json G c o fuel :
  Store.read_optional Store.read_str c = Some o -> 1 <= fuel ->
  Store.read_json fuel G c = Some (opt_str o).
Proof.
  intros Ho Hf. apply read_optional_inv in Ho as [[-> ->]|(_ & s & -> & Hs)].
  - destruct fuel; [lia|reflexivity].
  - now apply read_str_json.
Qed.

Lemma read_str_list_json G c l fuel :
  Store.read_list Store.read_str G c = Some l -> 2 <= fuel ->
  Store.read_json fuel G c = Some (str_list l).
Proof.
  unfold Store.read_list. intros Hl Hf.
  destruct c as [| | | | | | | |p]; try discriminate.
  destruct (G !! p) as [[items| |]|] eqn:Ep; try discriminate.
  destruct fuel as [|fuel]; [lia|]. simpl. rewrite Ep.
  assert (E : mapM (Store.read_json fuel G) items = Some (map JStr l)).
  { clear Ep. revert l Hl. induction items as [|v items IH]; intros l Hl.
    - injection Hl as <-. reflexivity.
    - simpl in Hl. destruct (Store.read_str v) as [s|] eqn:Es; [|discriminate].
      simpl in Hl. destruct (mapM Store.read_str items) as [l'|]; [|discriminate].
      injection Hl as <-. simpl.
      rewrite (read_str_json G v s fuel Es) by lia. simpl.
      now rewrite (IH l' eq_refl). }
  now rewrite E.
Qed.

Lemma read_int_dict_json G c w fuel :
  Store.read_int_dict G c = Some w -> 2 <= fuel ->
  Store.read_json fuel G c = Some (int_dict w).
Proof.
  unfold Store.read_int_dict. intros Hw Hf.
  destruct c as [| | | | | | | |p]; try discriminate.
  destruct (G !! p) as [[|items|]|] eqn:Ep; try discriminate.
  destruct fuel as [|[|fuel]]; [lia|lia|]. cbn [Store.read_json]. rewrite Ep.
  match goal with
  | |- JObject <$> mapM ?f items = _ =>
      assert (E : mapM f items
                  = Some (map (fun kv => (fst kv, JInt (snd kv))) w))
  end.
  { clear Ep. revert w Hw. induction items as [|[k v] items IH]; intros w Hw.
    - injection Hw as <-. reflexivity.
    - simpl in Hw. destruct v; try discriminate. simpl in Hw.
      match type of Hw with
      | context [mapM ?g items] => destruct (mapM g items) as [w'|]; [|discriminate]
      end.
      injection Hw as <-. simpl.
      now rewrite (IH w' eq_refl). }
  now rewrite E.
Qed.


(** *** The four methods *)

Ltac invert_read H :=
  repeat match type of H with
         | mbind _ ?e = Some _ =>
             let E := fresh "E" in
             destruct e eqn:E; [simpl in H | discriminate H]
         end;
  injection H as <-.

Lemma TimerEntry_to_dict_frame G h self (e : TimerEntry) :
  G ⊆ h ->
  Store.read_TimerEntry G self = Some e ->
  returns G h (Store.TimerEntry_to_dict self) (JObject (TimerEntry_to_dict e)) 2.
Proof.
  intros Hsub Hread. unfold Store.read_TimerEntry in Hread.
  invert_read Hread. rename l into attrs.
  apply read_attr_inv in E0 as (v1 & Hv1 & Hs1).
  apply read_attr_inv in E1 as (v2 & Hv2 & Hs2).
  destruct (building_new G h [ ("startTime", v1); ("endTime", v2) ]
              (TimerEntry_to_dict {| start_time := s; end_time := o |}) 1 Hsub)
    as (r & H & Hnew & Hb).
  { intros fuel Hf. unfold read_items, TimerEntry_to_dict. simpl.
    rewrite (read_str_json G v1 s fuel Hs1 Hf). simpl.
    now rewrite (read_opt_str_json G v2 o fuel Hs2 Hf). }
  apply (building_returns G h r H _ 1 _ Hsub); [|exact Hb].
  unfold Store.TimerEntry_to_dict.
  rewrite (bind_run _ _ _ _ _ (getattr_run _ _ _ _ _ _ _ Hsub E Hv1)).
  rewrite (bind_run _ _ _ _ _ (getattr_run _ _ _ _ _ _ _ Hsub E Hv2)).
  exact Hnew.
Qed.

Lemma TimerEntry_method_frame G h self (e : TimerEntry) :
  G ⊆ h ->
  Store.read_TimerEntry G self = Some e ->
  returns G h (Store.method "TimerEntry" Store.TimerEntry_to_dict self)
    (JObject (TimerEntry_to_dict e)) 2.
Proof.
  intros Hsub Hread.
  destruct (TimerEntry_to_dict_frame G h self e Hsub Hread)
    as (r & Δ & Hrun & Hd & Hj).
  exists r, Δ. repeat split; auto.
  unfold Store.read_TimerEntry in Hread.
  destruct (Store.instance_attrs "TimerEntry" G self) as [attrs|] eqn:Ei;
    [|discriminate].
  now rewrite (method_run _ _ _ _ _ _ Hsub Ei).
Qed.


(** The steps of a method are taken one after the other: each tactic finds
    the state of the dictionary under construction and the attribute read
    from the input, and leaves the run of that step and the new state. *)
Ltac plain_step a k rd conv Hsub Hi :=
  match goal with
  | Hb : building ?G ?h ?r ?H ?d ?n,
    Ea : Store.read_attr (Store.read_optional rd) a ?attrs = Some ?o |- _ =>
      let H' := fresh "H" in
      let Hrun := fresh "Hrun" in
      let Hb' := fresh "Hb" in
      destruct (step_plain rd conv _ G h r H d n _ attrs a k o Hsub Hb Hi Ea)
        as (H' & Hrun & Hb'); [|clear Hb Ea]
  end.

Ltac enum_step a k rd tag Hsub Hi :=
  match goal with
  | Hb : building ?G ?h ?r ?H ?d ?n,
    Ea : Store.read_attr (Store.read_optional rd) a ?attrs = Some ?o |- _ =>
      let H' := fresh "H" in
      let Hrun := fresh "Hrun" in
      let Hb' := fresh "Hb" in
      destruct (step_enum rd tag _ G h r H d n _ attrs a k o Hsub Hb Hi Ea)
        as (H' & Hrun & Hb'); [| |clear Hb Ea]
  end.

Ltac loop_step a k rd conv f n0 Hsub Hi :=
  match goal with
  | Hb : building ?G ?h ?r ?H ?d ?n,
    Ea : Store.read_attr (Store.read_optional (Store.read_list rd ?G)) a ?attrs
         = Some ?o |- _ =>
      let H' := fresh "H" in
      let Hrun := fresh "Hrun" in
      let Hb' := fresh "Hb" in
      destruct (step_loop rd conv f _ G h r H d n n0 _ attrs a k o Hsub Hb Hi Ea)
        as (H' & Hrun & Hb'); [| |clear Hb Ea]
  end.

Ltac replay :=
  repeat match goal with
         | Hr : Store.bind _ _ ?H = Some _ |- context [?H] =>
             rewrite (bind_run _ _ _ _ _ Hr); clear Hr; cbv beta
         end.

Lemma KanbanTask_to_dict_frame G h self (t : KanbanTask) :
  G ⊆ h ->
  Store.read_KanbanTask G self = Some t ->
  returns G h (Store.KanbanTask_to_dict self) (JObject (KanbanTask_to_dict t)) 4.
Proof.
  intros Hsub Hread. unfold Store.read_KanbanTask in Hread.
  destruct (Store.instance_attrs "KanbanTask" G self) as [attrs|] eqn:Hi;
    [simpl in Hread | discriminate].
  invert_read Hread.
  match goal with
  | Ea : Store.read_attr Store.read_str "task" attrs = Some _ |- _ =>
      apply read_attr_inv in Ea as (v1 & Hv1 & Hs1)
  end.
  match goal with
  | |- context [{| task := ?s |}] =>
      destruct (building_new G h [ ("task", v1) ] [ ("task", JStr s) ] 3 Hsub)
        as (r & H0 & Hnew & Hb)
  end.
  { intros fuel Hf. unfold read_items. simpl.
    now rewrite (read_str_json G v1 _ fuel Hs1) by lia. }
  plain_step "status" "status" Store.read_str JStr Hsub Hi.
  { intros; apply read_str_json; [assumption|lia]. }
  loop_step "timer_entries" "timerEntries" (Store.read_TimerEntry G)
    (fun e => JObject (TimerEntry_to_dict e))
    (Store.method "TimerEntry" Store.TimerEntry_to_dict) 2 Hsub Hi.
  { intros; now apply TimerEntry_method_frame. }
  { lia. }
  plain_step "target_time" "targetTime" Store.read_str JStr Hsub Hi.
  { intros; apply read_str_json; [assumption|lia]. }
  plain_step "tags" "tags" (Store.read_list Store.read_str G) str_list Hsub Hi.
  { intros; apply read_str_list_json; [assumption|lia]. }
  plain_step "due_date" "dueDate" Store.read_str JStr Hsub Hi.
  { intros; apply read_str_json; [assumption|lia]. }
  plain_step "update_date_time" "updateDateTime" Store.read_str JStr Hsub Hi.
  { intros; apply read_str_json; [assumption|lia]. }
  match goal with
  | Hb : building G h r ?H _ _ |- _ =>
      apply (building_returns G h r H _ 3 _ Hsub); [|exact Hb]
  end.
  unfold Store.KanbanTask_to_dict.
  rewrite (bind_run _ _ _ _ _ (getattr_run _ _ _ _ _ _ _ Hsub Hi Hv1)).
  rewrite (bind_run _ _ _ _ _ Hnew). cbv beta.
  replay. reflexivity.
Qed.


Lemma KanbanTask_method_frame G h self (t : KanbanTask) :
  G ⊆ h ->
  Store.read_KanbanTask G self = Some t ->
  returns G h (Store.method "KanbanTask" Store.KanbanTask_to_dict self)
    (JObject (KanbanTask_to_dict t)) 4.
Proof.
  intros Hsub Hread.
  destruct (KanbanTask_to_dict_frame G h self t Hsub Hread)
    as (r & Δ & Hrun & Hd & Hj).
  exists r, Δ. repeat split; auto.
  unfold Store.read_KanbanTask in Hread.
  destruct (Store.instance_attrs "KanbanTask" G self) as [attrs|] eqn:Ei;
    [|discriminate].
  now rewrite (method_run _ _ _ _ _ _ Hsub Ei).
Qed.

Lemma ColumnMetadata_to_dict_frame G h self (m : ColumnMetadata) :
  G ⊆ h ->
  Store.read_ColumnMetadata G self = Some m ->
  returns G h (Store.ColumnMetadata_to_dict self)
    (JObject (ColumnMetadata_to_dict m)) 2.
Proof.
  intros Hsub Hread. unfold Store.read_ColumnMetadata in Hread.
  destruct (Store.instance_attrs "ColumnMetadata" G self) as [attrs|] eqn:Hi;
    [simpl in Hread | discriminate].
  invert_read Hread.
  match goal with
  | Ea : Store.read_attr Store.read_str "name" attrs = Some _ |- _ =>
      apply read_attr_inv in Ea as (v1 & Hv1 & Hs1)
  end.
  match goal with
  | Ea : Store.read_attr Store.read_ColumnState "state" attrs = Some _ |- _ =>
      apply read_attr_inv in Ea as (v2 & Hv2 & Hs2)
  end.
  destruct v2; try discriminate. injection Hs2 as ->.
  match goal with
  | |- context [{| name := ?s; state := ?st |}] =>
      destruct (building_new G h
                  [ ("name", v1); ("state", Store.VStr (ColumnState_value st)) ]
                  [ ("name", JStr s); ("state", JStr (ColumnState_value st)) ]
                  1 Hsub)
        as (r & H0 & Hnew & Hb)
  end.
  { intros fuel Hf. unfold read_items. simpl.
    rewrite (read_str_json G v1 _ fuel Hs1) by lia. simpl.
    destruct fuel; [lia|reflexivity]. }
  plain_step "icon" "icon" Store.read_str JStr Hsub Hi.
  { intros; apply read_str_json; [assumption|lia]. }
  enum_step "sort_field" "sortField" Store.read_SortField SortField_value Hsub Hi.
  { intros cv xv Hcv. destruct cv; try discriminate. now injection Hcv as ->. }
  { lia. }
  enum_step "sort_order" "sortOrder" Store.read_SortOrder SortOrder_value Hsub Hi.
  { intros cv xv Hcv. destruct cv; try discriminate. now injection Hcv as ->. }
  { lia. }
  plain_step "manual_sort" "manualSort" Store.read_bool JBool Hsub Hi.
  { intros; apply read_bool_json; [assumption|lia]. }
  match goal with
  | Hb : building G h r ?H _ _ |- _ =>
      apply (building_returns G h r H _ 1 _ Hsub); [|exact Hb]
  end.
  unfold Store.ColumnMetadata_to_dict.
  rewrite (bind_run _ _ _ _ _ (getattr_run _ _ _ _ _ _ _ Hsub Hi Hv1)).
  rewrite (bind_run _ _ _ _ _ (getattr_run _ _ _ _ _ _ _ Hsub Hi Hv2)).
  unfold Store.enum_value at 1.
  rewrite (bind_run _ _ _ _ _ (eq_refl : Store.ret _ h = Some (_, h))).
  rewrite (bind_run _ _ _ _ _ Hnew). cbv beta.
  replay. reflexivity.
Qed.

Lemma ColumnMetadata_method_frame G h self (m : ColumnMetadata) :
  G ⊆ h ->
  Store.read_ColumnMetadata G self = Some m ->
  returns G h (Store.method "ColumnMetadata" Store.ColumnMetadata_to_dict self)
    (JObject (ColumnMetadata_to_dict m)) 2.
Proof.
  intros Hsub Hread.
  destruct (ColumnMetadata_to_dict_frame G h self m Hsub Hread)
    as (r & Δ & Hrun & Hd & Hj).
  exists r, Δ. repeat split; auto.
  unfold Store.read_ColumnMetadata in Hread.
  destruct (Store.instance_attrs "ColumnMetadata" G self) as [attrs|] eqn:Ei;
    [|discriminate].
  now rewrite (method_run _ _ _ _ _ _ Hsub Ei).
Qed.

Lemma KanbanData_to_dict_frame G h self (d : KanbanData) :
  G ⊆ h ->
  Store.read_KanbanData G self = Some d ->
  returns G h (Store.KanbanData_to_dict self) (JObject (KanbanData_to_dict d)) 6.
Proof.
  intros Hsub Hread. unfold Store.read_KanbanData in Hread.
  destruct (Store.instance_attrs "KanbanData" G self) as [attrs|] eqn:Hi;
    [simpl in Hread | discriminate].
  invert_read Hread.
  destruct (building_new G h [] [] 5 Hsub) as (r & H0 & Hnew & Hb).
  { intros fuel Hf. reflexivity. }
  loop_step "tasks" "tasks" (Store.read_KanbanTask G)
    (fun t => JObject (KanbanTask_to_dict t))
    (Store.method "KanbanTask" Store.KanbanTask_to_dict) 4 Hsub Hi.
  { intros; now apply KanbanTask_method_frame. }
  { lia. }
  plain_step "columns" "columns" (Store.read_list Store.read_str G) str_list
    Hsub Hi.
  { intros; apply read_str_list_json; [assumption|lia]. }
  loop_step "column_metadata" "columnMetadata" (Store.read_ColumnMetadata G)
    (fun m => JObject (ColumnMetadata_to_dict m))
    (Store.method "ColumnMetadata" Store.ColumnMetadata_to_dict) 2 Hsub Hi.
  { intros; now apply ColumnMetadata_method_frame. }
  { lia. }
  plain_step "collapsed_columns" "collapsedColumns"
    (Store.read_list Store.read_str G) str_list Hsub Hi.
  { intros; apply read_str_list_json; [assumption|lia]. }
  enum_step "view" "view" Store.read_KanbanView KanbanView_value Hsub Hi.
  { intros cv xv Hcv. destruct cv; try discriminate. now injection Hcv as ->. }
  { lia. }
  plain_step "slim_mode" "slimMode" Store.read_bool JBool Hsub Hi.
  { intros; apply read_bool_json; [assumption|lia]. }
  plain_step "column_widths" "columnWidths" (Store.read_int_dict G) int_dict
    Hsub Hi.
  { intros; apply read_int_dict_json; [assumption|lia]. }
  match goal with
  | Hb : building G h r ?H _ _ |- _ =>
      apply (building_returns G h r H _ 5 _ Hsub); [|exact Hb]
  end.
  unfold Store.KanbanData_to_dict.
  rewrite (bind_run _ _ _ _ _ Hnew). cbv beta.
  replay. reflexivity.
Qed.

End StoreRefinement.

Lemma returns_extends (h : Store.heap) (m : Store.Py Store.val) (j : json) (n : nat) :
  returns h h m j n ->
  n <= Store.max_depth ->
  exists r h',
    m h = Some (r, h') /\ extends h h' /\
    Store.read_json Store.max_depth h' r = Some j.
Proof.
  intros (r & Δ & Hrun & Hd & Hj) Hn. exists r, (h ∪ Δ). repeat split.
  - exact Hrun.
  - intros l o Hl. now apply lookup_union_Some_l.
  - now apply Hj.
Qed.

Lemma max_depth_enough : 6 <= Store.max_depth.
Proof. unfold Store.max_depth. lia. Qed.

Lemma KanbanData_to_json_run (h : Store.heap) self (d : KanbanData) indent :
  Store.read_KanbanData h self = Some d ->
  exists h',
    Store.KanbanData_to_json self indent h = Some (KanbanData_to_json d indent, h') /\
    extends h h'.
Proof.
  intros Hread.
  destruct (returns_extends h _ _ 6
              (KanbanData_to_dict_frame h h self d (reflexivity h) Hread)
              max_depth_enough) as (r & h' & Hrun & Hext & Hj).
  exists h'. split; [|exact Hext].
  unfold Store.KanbanData_to_json. rewrite (bind_run _ _ _ _ _ Hrun).
  unfold Store.dumps. rewrite Hj. reflexivity.
Qed.

(** ** Purity *)

(** C9: the conversions are pure and deterministic.  Run on Python's object
    store, every [to_dict] and [to_json] succeeds on a well-typed record;
    it leaves every object that existed before the call as it was (the only
    effect on the heap is the allocation of the objects of the result); and
    what it returns is the value the functional model computes from the
    record alone, whatever else the heap holds.  Hence two calls on equal
    records, in any two heaps, return equal outputs. *)
Theorem conversions_are_pure :
  (forall (h : Store.heap) self (e : TimerEntry),
      Store.read_TimerEntry h self = Some e ->
      exists r h',
        Store.TimerEntry_to_dict self h = Some (r, h') /\ extends h h' /\
        Store.read_json Store.max_depth h' r = Some (JObject (TimerEntry_to_dict e))) /\
  (forall (h : Store.heap) self (t : KanbanTask),
      Store.read_KanbanTask h self = Some t ->
      exists r h',
        Store.KanbanTask_to_dict self h = Some (r, h') /\ extends h h' /\
        Store.read_json Store.max_depth h' r = Some (JObject (KanbanTask_to_dict t))) /\
  (forall (h : Store.heap) self (m : ColumnMetadata),
      Store.read_ColumnMetadata h self = Some m ->
      exists r h',
        Store.ColumnMetadata_to_dict self h = Some (r, h') /\ extends h h' /\
        Store.read_json Store.max_depth h' r
          = Some (JObject (ColumnMetadata_to_dict m))) /\
  (forall (h : Store.heap) self (d : KanbanData),
      Store.read_KanbanData h self = Some d ->
      exists r h',
        Store.KanbanData_to_dict self h = Some (r, h') /\ extends h h' /\
        Store.read_json Store.max_depth h' r = Some (JObject (KanbanData_to_dict d))) /\
  (forall (h : Store.heap) self (d : KanbanData) indent,
      Store.read_KanbanData h self = Some d ->
      exists h',
        Store.KanbanData_to_json self indent h
          = Some (KanbanData_to_json d indent, h') /\
        extends h h') /\
  (forall (h1 h2 : Store.heap) self1 self2 (d : KanbanData) indent,
      Store.read_KanbanData h1 self1 = Some d ->
      Store.read_KanbanData h2 self2 = Some d ->
      exists text h1' h2',
        Store.KanbanData_to_json self1 indent h1 = Some (text, h1') /\
        Store.KanbanData_to_json self2 indent h2 = Some (text, h2')).
Proof.
  pose proof max_depth_enough as Hmax.
  repeat match goal with |- _ /\ _ => split end.
  - intros h self e Hread.
    apply (returns_extends h _ _ 2); [|lia].
    now apply TimerEntry_to_dict_frame.
  - intros h self t Hread.
    apply (returns_extends h _ _ 4); [|lia].
    now apply KanbanTask_to_dict_frame.
  - intros h self m Hread.
    apply (returns_extends h _ _ 2); [|lia].
    now apply ColumnMetadata_to_dict_frame.
  - intros h self d Hread.
    apply (returns_extends h _ _ 6); [|lia].
    now apply KanbanData_to_dict_frame.
  - intros h self d indent Hread. now apply KanbanData_to_json_run.
  - intros h1 h2 self1 self2 d indent Hread1 Hread2.
    destruct (KanbanData_to_json_run h1 self1 d indent Hread1) as (h1' & Hrun1 & _).
    destruct (KanbanData_to_json_run h2 self2 d indent Hread2) as (h2' & Hrun2 & _).
    eauto.
Qed.

Lemma conversions_are_pure_witness :
  (exists r h',
      Store.TimerEntry_to_dict (Store.VRef 1%positive) Store.sample_heap
        = Some (r, h') /\
      extends Store.sample_heap h' /\
      Store.read_json Store.max_depth h' r
        = Some (JObject (TimerEntry_to_dict sample_timer))) /\
  (exists r h',
      Store.KanbanTask_to_dict (Store.VRef 4%positive) Store.sample_heap
        = Some (r, h') /\
      extends Store.sample_heap h' /\
      Store.read_json Store.max_depth h' r
        = Some (JObject (KanbanTask_to_dict sample_task))) /\
  (exists r h',
      Store.ColumnMetadata_to_dict (Store.VRef 7%positive) Store.sample_heap
        = Some (r, h') /\
      extends Store.sample_heap h' /\
      Store.read_json Store.max_depth h' r
        = Some (JObject (ColumnMetadata_to_dict sample_meta))) /\
  (exists h',
      Store.KanbanData_to_json (Store.VRef 10%positive) None Store.sample_heap
        = Some (KanbanData_to_json sample_board None, h') /\
      extends Store.sample_heap h').
Proof.
  destruct conversions_are_pure as (He & Ht & Hm & _ & Hj & _).
  split; [|split; [|split]].
  - apply (He Store.sample_heap (Store.VRef 1%positive) sample_timer).
    vm_compute. reflexivity.
  - apply (Ht Store.sample_heap (Store.VRef 4%positive) sample_task).
    vm_compute. reflexivity.
  - apply (Hm Store.sample_heap (Store.VRef 7%positive) sample_meta).
    vm_compute. reflexivity.
  - apply (Hj Store.sample_heap (Store.VRef 10%positive) sample_board None).
    vm_compute. reflexivity.
Defined.
